(** * commandee-api: the authentication gate, the negotiated OpenAPI
      document and the item routes

    A shallow embedding of [server.ts] (the Fastify instance, its
    [authenticate] decorator, the YAML body parser and the [/openapi]
    routes) and of [routes/item.ts] (the six item handlers), followed by
    the properties of the specification that are settled on it.

    Conventions of the embedding
    - A JavaScript value that may be [undefined] is an [option]; [None] is
      [undefined].
    - An [async] function is a state transformer that either returns or
      throws ([Async]); [await] is the bind of the monad.  State changes made
      before a [throw] persist, as they do in JavaScript.
    - Libraries the repository only calls (token verification of
      [@fastify/jwt], [YAML.load], [request.type] of [@fastify/accepts], the
      document generator of [@fastify/swagger]) are the fields of the class
      [Collaborators]; nothing is assumed about them.
    - The framework is modelled where the routes depend on it: a reply
      that carries an [Error] takes the error's own status, and the route
      schemas are enforced by the validator with the options the Fastify
      instance of [server.ts] leaves at their defaults (types are coerced,
      defaults filled in, undeclared properties removed). *)

From Stdlib Require Import ZArith QArith String List Bool Lia.
From stdpp Require Import base option decidable gmap strings list.

Set Warnings "-register-all".
Local Open Scope string_scope.
Local Open Scope Z_scope.

(** ** JavaScript values *)

(** A parsed request body.  Numbers are rationals: what a JSON text can
    denote, before any rounding to a double. *)
Inductive Json : Type :=
| JNull
| JBool (b : bool)
| JNumber (q : Q)
| JString (s : string)
| JArray (xs : list Json)
| JObject (fields : list (string * Json)).

(** A value that may be [undefined]. *)
Definition JsVal : Type := option Json.

(** [o.key] on a parsed body: [undefined] when [o] is no object or has no
    such key. *)
Fixpoint assoc {A} (key : string) (l : list (string * A)) : option A :=
  match l with
  | [] => None
  | (k, v) :: rest => if String.eqb k key then Some v else assoc key rest
  end.

Definition prop (key : string) (v : JsVal) : JsVal :=
  match v with
  | Some (JObject fields) => assoc key fields
  | _ => None
  end.

(** An [Error] object with the three properties the code reads or writes. *)
Record JsError : Type := mkError {
  name : string;
  code : option string;
  statusCode : option Z;
  message : string
}.

(** [err.statusCode = n] *)
Definition setStatusCode (n : Z) (err : JsError) : JsError :=
  mkError (name err) (code err) (Some n) (message err).

Definition TypeError (msg : string) : JsError :=
  mkError "TypeError" None None msg.

(** Modelled from the spec: [api_error.ts] is not among the sources.  The
    handlers build [new APIError(message, status)]; the spec calls it a
    typed error carrying an explicit HTTP status and message. *)
Definition APIError (msg : string) (status : Z) : JsError :=
  mkError "APIError" None (Some status) msg.

(** ** Users, restaurants, items *)

Definition UserId : Type := Z.
Definition RestaurantId : Type := Z.

Record Restaurant : Type := mkRestaurant { r_id : RestaurantId }.

Record User : Type := mkUser {
  u_id : UserId;
  restaurant : option Restaurant
}.

(** What a verified token carries: [formatUser] reads [user.id] off it. *)
Record JwtPayload : Type := mkPayload { p_id : UserId }.

(** The value held by [request.user].  [@fastify/jwt] decorates the request
    with [null]; after a successful [jwtVerify] it holds whatever
    [formatUser] returned, which in [server.ts] is the closure
    [() => userControl.get(user.id)], here [UserDeferred id]. *)
Inductive UserRef : Type :=
| UserNull
| UserDeferred (id : UserId)
| UserRecord (u : User).

(** An item row.  [name], [price] and [description] are stored as the
    handler passes them, so an omitted description is [undefined].  The
    owning restaurant is named by an ID of the same primitive type as
    [restaurant.id], so that [!==] between the two is plain inequality. *)
Record Item : Type := mkItem {
  i_id : string;
  i_name : JsVal;
  i_price : JsVal;
  i_description : JsVal;
  restaurantId : RestaurantId
}.

Record ItemFields : Type := mkFields {
  f_name : JsVal;
  f_price : JsVal;
  f_description : JsVal;
  f_restaurantId : RestaurantId
}.

(** ** Request, reply and process state *)

Record Request : Type := mkRequest {
  token : option string;        (* the [token] cookie or bearer credential *)
  accept : option string;       (* the [Accept] header *)
  params_id : string;           (* [request.params.id] *)
  body : JsVal;                 (* [request.body], after parsing *)
  user : UserRef                (* [request.user] *)
}.

Inductive Payload : Type :=
| PError (e : JsError)
| PText (s : string)
| PDocument (s : option string)
| PFile (path : string)
| PItem (it : Item)
| PMenu (l : list Item)
| PStats (v : JsVal).

Record Reply : Type := mkReply {
  sent : bool;
  status : Z;
  contentType : option string;
  payload : option Payload
}.

Definition freshReply : Reply := mkReply false 200 None None.

(** Calls made to the controllers, newest first. *)
Inductive Call : Type :=
| UserGet (id : UserId)
| ItemGetAllFrom (r : RestaurantId)
| ItemGet (id : string)
| ItemCreate (fields : ItemFields)
| ItemDel (id : string)
| StatsMostSold (r : RestaurantId)
| StatsLeastSold (r : RestaurantId).

Record St : Type := mkSt {
  request : Request;
  reply : Reply;
  users : gmap Z User;
  items : gmap string Item;
  calls : list Call
}.

Definition setUser (u : UserRef) (s : St) : St :=
  let r := request s in
  mkSt (mkRequest (token r) (accept r) (params_id r) (body r) u)
       (reply s) (users s) (items s) (calls s).

Definition setReply (r : Reply) (s : St) : St :=
  mkSt (request s) r (users s) (items s) (calls s).

Definition setItems (m : gmap string Item) (s : St) : St :=
  mkSt (request s) (reply s) (users s) m (calls s).

Definition logCall (c : Call) (s : St) : St :=
  mkSt (request s) (reply s) (users s) (items s) (c :: calls s).

(** ** Asynchronous functions *)

Inductive Outcome (A : Type) : Type :=
| Returned (a : A)
| Thrown (e : JsError).
Arguments Returned {A} a.
Arguments Thrown {A} e.

Definition Async (A : Type) : Type := St -> Outcome A * St.

Definition ret {A} (a : A) : Async A := fun s => (Returned a, s).

Definition throw {A} (e : JsError) : Async A := fun s => (Thrown e, s).

Definition bind {A B} (m : Async A) (k : A -> Async B) : Async B :=
  fun s =>
    match m s with
    | (Returned a, s') => k a s'
    | (Thrown e, s') => (Thrown e, s')
    end.

(** [try { m } catch (err) { h err }] *)
Definition tryCatch {A} (m : Async A) (h : JsError -> Async A) : Async A :=
  fun s =>
    match m s with
    | (Returned a, s') => (Returned a, s')
    | (Thrown e, s') => h e s'
    end.

#[global] Instance async_ret : MRet Async := @ret.
#[global] Instance async_bind : MBind Async := fun A B k m => bind m k.

Definition getState : Async St := fun s => (Returned s, s).
Definition modify (f : St -> St) : Async unit := fun s => (Returned tt, f s).

(** [reply.code(n)] and [reply.type(t)] *)
Definition reply_code (n : Z) : Async unit :=
  modify (fun s =>
    let r := reply s in
    setReply (mkReply (sent r) n (contentType r) (payload r)) s).

Definition reply_type (t : string) : Async unit :=
  modify (fun s =>
    let r := reply s in
    setReply (mkReply (sent r) (status r) (Some t) (payload r)) s).

(** The status of a reply that carries an [Error].  The error path of the
    framework lets the error's own [statusCode] win when it is an error
    status; otherwise a status of 400 or more already set on the reply is
    kept, and without one the status is 500. *)
Definition errorStatus (e : JsError) (current : Z) : Z :=
  let fallback := if 400 <=? current then current else 500 in
  match statusCode e with
  | Some n => if 400 <=? n then n else fallback
  | None => fallback
  end.

(** [reply.send(p)]: the response leaves.  A payload that is no error goes
    out with the status set so far; an [Error] goes through the error
    path, so [reply.code(n).send(error)] does not answer [n] when the error
    has an error status of its own.  The header of a JSON or text answer
    also gets a charset parameter, and a further send on a reply that has
    left is ignored by the framework; the model keeps the media type only
    and follows the first send of a request. *)
Definition reply_send (p : Payload) : Async unit :=
  modify (fun s =>
    let r := reply s in
    let code := match p with
                | PError e => errorStatus e (status r)
                | _ => status r
                end in
    setReply (mkReply true code (contentType r) (Some p)) s).

(** [reply.sendFile(path)] of [@fastify/static]: the file below the static
    root is the response. *)
Definition reply_sendFile (path : string) : Async unit :=
  reply_send (PFile path).

(** ** External collaborators *)

(** What [request.type(types)] of [@fastify/accepts] can return in
    JavaScript: [false], one media type, or an array of media types. *)
Inductive TypeResult : Type :=
| TypeFalse
| TypeString (t : string)
| TypeArray (ts : list string).

Class Collaborators : Type := {
  (* [import.meta.env.PROD]; [import.meta.env.DEV] is its negation *)
  PROD : bool;
  (* [@fastify/jwt]: the outcome of verifying the request's credential,
     either the error [jwtVerify] throws or the decoded payload *)
  jwtDecode : option string -> JsError + JwtPayload;
  (* [js-yaml]: [YAML.load] throws or returns the loaded value *)
  YAML_load : string -> JsError + JsVal;
  (* the framework's JSON body parser, errors already given their status *)
  JSON_parse : string -> JsError + JsVal;
  (* parsers registered by [@fastify/formbody] and [@fastify/multipart],
     and the framework's answer to any other content type *)
  pluginParse : string -> string -> JsError + JsVal;
  (* [@fastify/accepts]: [request.type(types)] for an [Accept] header *)
  request_type : option string -> list string -> TypeResult;
  (* [@fastify/swagger]: [JSON.stringify(fastify.swagger())] and
     [fastify.swagger({ yaml: true })] *)
  swagger_json : string;
  swagger_yaml : string;
  (* the public ID the item controller gives a new row *)
  newPublicId : gmap string Item -> ItemFields -> string;
  (* the statistics controller *)
  mostSold : gmap string Item -> RestaurantId -> JsVal;
  leastSold : gmap string Item -> RestaurantId -> JsVal;
  (* JavaScript's conversions between numbers and strings, as the
     validator's coercion uses them: [String(n)], and [+s] for a string
     that denotes a number *)
  String_of_number : Q -> string;
  Number_of_string : string -> option Q
}.

Definition DEV `{Collaborators} : bool := negb PROD.

(** ** The framework's error handling *)

(** An error that reaches the framework, thrown by a handler or handed
    over by a body parser, is sent as the reply. *)
Definition handleError (e : JsError) : Async unit := reply_send (PError e).

(** The error the schema layer raises for a request that fails
    validation. *)
Definition validationError : JsError :=
  mkError "Error" (Some "FST_ERR_VALIDATION") (Some 400)
          "request does not match the schema".

(** ** server.ts *)

Section Server.
Context `{Collaborators}.

(** Modelled from the spec: [controllers/user.ts] is not among the
    sources.  The spec has the token's subject resolved "via a lookup
    keyed by user ID", and an unmatched lookup fail from the
    persistence collaborator. *)
Definition userControl_get (id : UserId) : Async User :=
  fun s =>
    let s' := logCall (UserGet id) s in
    match users s !! id with
    | Some u => (Returned u, s')
    | None => (Thrown (mkError "Error" None None "user not found"), s')
    end.

(** [formatUser: (user) => () => userControl.get(user.id)] *)
Definition formatUser (p : JwtPayload) : UserRef := UserDeferred (p_id p).

(** Calling the value of [request.user] as a function. *)
Definition callUser (r : UserRef) : Async User :=
  match r with
  | UserDeferred id => userControl_get id
  | UserNull | UserRecord _ =>
      throw (TypeError "request.user is not a function")
  end.

(** [request.jwtVerify()]: throws the verification error, or stores the
    formatted user in [request.user]. *)
Definition jwtVerify : Async unit :=
  s ← getState;
  match jwtDecode (token (request s)) with
  | inl err => throw err
  | inr p => modify (setUser (formatUser p))
  end.

Definition TOKEN_EXPIRED : string := "FST_JWT_AUTHORIZATION_TOKEN_EXPIRED".

(** [fastify.decorate("authenticate", async function (request, reply))] *)
Definition authenticate : Async unit :=
  tryCatch jwtVerify (fun error =>
    if bool_decide (code error = Some TOKEN_EXPIRED) then
      reply_code 403;; reply_send (PError error)
    else
      reply_code 401;; reply_send (PError error)).

(** The content types of [fastify.addContentTypeParser]. *)
Definition yamlContentTypes : list string :=
  ["application/yaml"; "application/yml"; "text/yaml"; "text/yml"].

(** The parser callback; the result is what it hands to [done]. *)
Definition yamlParser (raw : string) : JsError + JsVal :=
  match YAML_load raw with
  | inr v => inr v
  | inl err => inl (setStatusCode 400 err)
  end.

(** The body parser the framework picks for a content type. *)
Definition parseBody (ct raw : string) : JsError + JsVal :=
  if bool_decide (ct ∈ yamlContentTypes) then yamlParser raw
  else if String.eqb ct "application/json" then JSON_parse raw
  else pluginParse ct raw.

(** A request whose body must be parsed first: a parser error is
    answered by the error handler and the route never runs. *)
Definition receive (ct raw : string) (route : JsVal -> Async unit)
  : Async unit :=
  match parseBody ct raw with
  | inl err => handleError err
  | inr v => route v
  end.

(** [var openAPIJson] and [var openAPIYaml]: assigned in the branch for
    development only, [undefined] otherwise. *)
Definition openAPIJson : option string :=
  if PROD then None else Some swagger_json.
Definition openAPIYaml : option string :=
  if PROD then None else Some swagger_yaml.

Definition supportedTypes : list string :=
  ["application/json"; "application/yaml"; "text/yaml"; "text/yml"].

(** [x || "application/json"]: [false] and the empty string are falsy,
    every array is truthy. *)
Definition orJson (x : TypeResult) : TypeResult :=
  match x with
  | TypeFalse => TypeString "application/json"
  | TypeString t => if String.eqb t "" then TypeString "application/json"
                    else TypeString t
  | TypeArray ts => TypeArray ts
  end.

(** [Array.isArray(validType) ? validType[0] : validType]; the first
    entry of an empty array is [undefined]. *)
Definition firstOf (validType : TypeResult) : option string :=
  match validType with
  | TypeArray ts => head ts
  | TypeString t => Some t
  | TypeFalse => None
  end.

(** [const validType] and [const type] of the [GET /openapi] handler. *)
Definition validType (acceptHeader : option string) : TypeResult :=
  orJson (request_type acceptHeader supportedTypes).

Definition negotiatedType (acceptHeader : option string) : option string :=
  firstOf (validType acceptHeader).

Definition sendJson : Async unit :=
  if PROD then reply_sendFile "/public/openapi.json"
  else reply_type "application/json";; reply_send (PDocument openAPIJson).

Definition sendYaml : Async unit :=
  if PROD then reply_sendFile "/public/openapi.yaml"
  else reply_type "text/yaml";; reply_send (PDocument openAPIYaml).

(** [GET /openapi] *)
Definition openapi : Async unit :=
  s ← getState;
  let type := negotiatedType (accept (request s)) in
  if bool_decide (type = Some "application/json") then sendJson
  else sendYaml.

(** [GET /openapi/json] and [GET /openapi/yaml] *)
Definition openapi_json : Async unit := sendJson.
Definition openapi_yaml : Async unit := sendYaml.

(** [GET /openapi.json] and [GET /openapi.yaml], registered in
    development only. *)
Definition openapi_dot_json : option (Async unit) :=
  if DEV then
    Some (reply_type "application/json";; reply_send (PDocument openAPIJson))
  else None.
Definition openapi_dot_yaml : option (Async unit) :=
  if DEV then
    Some (reply_type "text/yaml";; reply_send (PDocument openAPIYaml))
  else None.

End Server.

(** The reply [authenticate] leaves when verification throws [err]. *)
Definition rejection (err : JsError) (r : Reply) : Reply :=
  mkReply true
          (errorStatus err
             (if bool_decide (code err = Some TOKEN_EXPIRED) then 403 else 401))
          (contentType r) (Some (PError err)).

(** The reply that carries the document in the representation [t], as
    the specification words the outcome of [GET /openapi]: JSON for
    [application/json], YAML for every other type; the stored file in
    production, the string held in memory otherwise. *)
Definition representation `{Collaborators} (t : string) (r : Reply) : Reply :=
  if String.eqb t "application/json" then
    if PROD then
      mkReply true (status r) (contentType r)
              (Some (PFile "/public/openapi.json"))
    else
      mkReply true (status r) (Some "application/json")
              (Some (PDocument (Some swagger_json)))
  else
    if PROD then
      mkReply true (status r) (contentType r)
              (Some (PFile "/public/openapi.yaml"))
    else
      mkReply true (status r) (Some "text/yaml")
              (Some (PDocument (Some swagger_yaml))).

(** ** JSON Schema, as far as the route schemas use it *)

Inductive JsonType : Type := TyString | TyInteger | TyNumber | TyObject | TyArray.

(** One schema object.  A keyword that is absent is [None]; an absent
    [additionalProperties] is [true].  [default] is carried as written; it
    is an annotation and takes no part in validation. *)
Inductive Schema : Type :=
| mkSchema (type : JsonType)
           (minLength maxLength : option nat)
           (minimum : option Q)
           (default : option Json)
           (properties : list (string * Schema))
           (required : list string)
           (additionalProperties : bool)
           (itemSchema : option Schema).

Definition isInteger (q : Q) : bool := (Z.pos (Qden (Qred q)) =? 1)%Z.

Definition atLeast {A} (le : A -> A -> bool) (bound : option A) (x : A) : bool :=
  match bound with
  | Some m => le m x
  | None => true
  end.

Definition atMost {A} (le : A -> A -> bool) (bound : option A) (x : A) : bool :=
  match bound with
  | Some m => le x m
  | None => true
  end.

(** Validation of a value against a schema: the type first, then the
    keywords that apply to that type. *)
Fixpoint validate (sch : Schema) (v : Json) {struct sch} : bool :=
  match sch with
  | mkSchema type minLength maxLength minimum _ properties required
             additionalProperties itemSchema =>
    match type, v with
    | TyString, JString s =>
        atLeast Nat.leb minLength (String.length s)
        && atMost Nat.leb maxLength (String.length s)
    | TyInteger, JNumber q => isInteger q && atLeast Qle_bool minimum q
    | TyNumber, JNumber q => atLeast Qle_bool minimum q
    | TyObject, JObject fields =>
        forallb (fun k => bool_decide (is_Some (assoc k fields))) required
        && (fix each (ps : list (string * Schema)) : bool :=
              match ps with
              | [] => true
              | (k, sub) :: rest =>
                  match assoc k fields with
                  | Some x => validate sub x
                  | None => true
                  end && each rest
              end) properties
        && (additionalProperties
            || forallb (fun kv => bool_decide (is_Some (assoc (fst kv) properties)))
                       fields)
    | TyArray, JArray xs =>
        match itemSchema with
        | Some sub => forallb (validate sub) xs
        | None => true
        end
    | _, _ => false
    end
  end.

Definition stringSchema (minLength maxLength : option nat) : Schema :=
  mkSchema TyString minLength maxLength None None [] [] true None.

(** The [body] schema of [POST /]. *)
Definition postBodySchema : Schema :=
  mkSchema TyObject None None None None
    [ ("name", stringSchema (Some 3%nat) (Some 255%nat));
      ("price", mkSchema TyInteger None None (Some 0%Q) (Some (JNumber 0%Q))
                         [] [] true None);
      ("description", stringSchema None (Some 255%nat)) ]
    ["name"; "price"]
    false
    None.

(** The [params] schema of [GET /:id] and [DELETE /:id]. *)
Definition paramsSchema : Schema :=
  mkSchema TyObject None None None None
    [ ("id", stringSchema (Some 16%nat) (Some 16%nat)) ]
    ["id"]
    true
    None.

(** The properties the body schema of [POST /] declares. *)
Definition postBodyKeys : list string := ["name"; "price"; "description"].

(** What the schema asks of the fields of a body. *)
Definition wellFormedItem (fields : list (string * Json)) : Prop :=
  (exists n, assoc "name" fields = Some (JString n) /\
             (3 <= String.length n <= 255)%nat) /\
  (exists p, assoc "price" fields = Some (JNumber p) /\
             isInteger p = true /\ (0 <= p)%Q) /\
  (assoc "description" fields = None \/
   exists d, assoc "description" fields = Some (JString d) /\
             (String.length d <= 255)%nat) /\
  (forall k x, In (k, x) fields -> In k postBodyKeys).

(** ** The validator of the Fastify instance *)

(** [Fastify({ ajv: { customOptions: { keywords: ["media"] } } })] adds a
    keyword and leaves the other options of the validator at the
    framework's defaults: [coerceTypes: "array"], [useDefaults: true] and
    [removeAdditional: true].  Validation therefore changes the data it
    accepts; [ajv] returns the data as validation leaves it, or [None]
    when the data is refused. *)

Definition hasType (t : JsonType) (v : Json) : bool :=
  match t, v with
  | TyString, JString _ => true
  | TyInteger, JNumber q => isInteger q
  | TyNumber, JNumber _ => true
  | TyObject, JObject _ => true
  | TyArray, JArray _ => true
  | _, _ => false
  end.

Definition schemaDefault (sch : Schema) : option Json :=
  match sch with
  | mkSchema _ _ _ _ default _ _ _ _ => default
  end.

(** [useDefaults]: a declared property that is missing gets the default
    its schema gives, if any, before the keywords of the object run. *)
Fixpoint assignDefaults (properties : list (string * Schema))
    (fields : list (string * Json)) : list (string * Json) :=
  match properties with
  | [] => fields
  | (k, sub) :: rest =>
      match assoc k fields, schemaDefault sub with
      | None, Some d => assignDefaults rest (fields ++ [(k, d)])
      | _, _ => assignDefaults rest fields
      end
  end.

(** [data[key] = x] on a key the object has. *)
Fixpoint setField (key : string) (x : Json) (fields : list (string * Json))
  : list (string * Json) :=
  match fields with
  | [] => []
  | (k, v) :: rest =>
      if String.eqb k key then (k, x) :: rest
      else (k, v) :: setField key x rest
  end.

Section Validator.
Context `{Collaborators}.

(** [coerceTypes]: what a value of another type becomes.  To a string: a
    number or a boolean is converted, [null] becomes the empty string.  To
    a number: a boolean becomes 1 or 0, [null] becomes 0, a non-empty
    string that denotes a number becomes that number, which for an integer
    must be whole.  To an array: a scalar is wrapped.  Nothing is coerced
    to an object.  (A string that denotes an infinity has no counterpart
    among the rationals.) *)
Definition coerceScalar (t : JsonType) (v : Json) : option Json :=
  match t, v with
  | TyString, JNumber q => Some (JString (String_of_number q))
  | TyString, JBool b => Some (JString (if b then "true" else "false"))
  | TyString, JNull => Some (JString "")
  | TyNumber, JBool b => Some (JNumber (if b then 1%Q else 0%Q))
  | TyNumber, JNull => Some (JNumber 0%Q)
  | TyNumber, JString s =>
      if String.eqb s "" then None
      else match Number_of_string s with
           | Some q => Some (JNumber q)
           | None => None
           end
  | TyInteger, JBool b => Some (JNumber (if b then 1%Q else 0%Q))
  | TyInteger, JNull => Some (JNumber 0%Q)
  | TyInteger, JString s =>
      if String.eqb s "" then None
      else match Number_of_string s with
           | Some q => if isInteger q then Some (JNumber q) else None
           | None => None
           end
  | TyArray, JString _ | TyArray, JNumber _
  | TyArray, JBool _ | TyArray, JNull => Some (JArray [v])
  | _, _ => None
  end.

(** The type check of a schema: a value of the type passes as it is;
    otherwise, with [coerceTypes: "array"], an array of one element stands
    for that element, and the scalar coercions are tried. *)
Definition coerceType (t : JsonType) (v : Json) : option Json :=
  if hasType t v then Some v
  else
    match t with
    | TyObject => None
    | _ =>
        match v with
        | JArray [x] => if hasType t x then Some x else coerceScalar t x
        | _ => coerceScalar t v
        end
    end.

(** Validation as the instance performs it. *)
Fixpoint ajv (sch : Schema) (v : Json) {struct sch} : option Json :=
  match sch with
  | mkSchema type minLength maxLength minimum _ properties required
             additionalProperties itemSchema =>
    match coerceType type v with
    | None => None
    | Some (JString s) =>
        if atLeast Nat.leb minLength (String.length s)
           && atMost Nat.leb maxLength (String.length s)
        then Some (JString s) else None
    | Some (JNumber q) =>
        if atLeast Qle_bool minimum q then Some (JNumber q) else None
    | Some (JObject fields) =>
        let filled := assignDefaults properties fields in
        if forallb (fun k => bool_decide (is_Some (assoc k filled))) required
        then
          let kept :=
            if additionalProperties then filled
            else List.filter
                   (fun kv => bool_decide (is_Some (assoc (fst kv) properties)))
                   filled in
          match
            (fix each (ps : list (string * Schema)) (fs : list (string * Json))
               : option (list (string * Json)) :=
               match ps with
               | [] => Some fs
               | (k, sub) :: rest =>
                   match assoc k fs with
                   | Some x =>
                       match ajv sub x with
                       | Some x' => each rest (setField k x' fs)
                       | None => None
                       end
                   | None => each rest fs
                   end
               end) properties kept
          with
          | Some fs => Some (JObject fs)
          | None => None
          end
        else None
    | Some (JArray xs) =>
        match itemSchema with
        | Some sub =>
            match
              (fix all (l : list Json) : option (list Json) :=
                 match l with
                 | [] => Some []
                 | x :: rest =>
                     match ajv sub x, all rest with
                     | Some x', Some rest' => Some (x' :: rest')
                     | _, _ => None
                     end
                 end) xs
            with
            | Some xs' => Some (JArray xs')
            | None => None
            end
        | None => Some (JArray xs)
        end
    | Some other => Some other
    end
  end.

(** ** A route and its schemas *)

(** A route as it is registered: the [params] and [body] schemas it
    declares, if any, and its handler. *)
Record Route : Type := mkRoute {
  routeParams : option Schema;
  routeBody : option Schema;
  routeHandler : Async unit
}.

(** [request.params] of a route with the one parameter [:id]; a
    parameter taken from the URL is a string. *)
Definition paramsOf (r : Request) : Json :=
  JObject [("id", JString (params_id r))].

Definition setBody (b : JsVal) (r : Request) : Request :=
  mkRequest (token r) (accept r) (params_id r) b (user r).

Definition setRequest (r : Request) (s : St) : St :=
  mkSt r (reply s) (users s) (items s) (calls s).

(** Validation of a request against the schemas of its route: the
    parameters, then the body.  The body the handler will see is the body
    as validation has left it; a missing body is [undefined], which is no
    object. *)
Definition validateRequest (route : Route) (r : Request) : option Request :=
  let paramsOk :=
    match routeParams route with
    | Some sch => bool_decide (is_Some (ajv sch (paramsOf r)))
    | None => true
    end in
  if paramsOk then
    match routeBody route with
    | None => Some r
    | Some sch =>
        match body r with
        | Some b =>
            match ajv sch b with
            | Some b' => Some (setBody (Some b') r)
            | None => None
            end
        | None => None
        end
    end
  else None.

(** The handler of a route under the framework: what it throws goes to
    the error handler unless the reply has left already. *)
Definition guarded (handler : Async unit) : Async unit :=
  tryCatch handler (fun e =>
    s' ← getState;
    if sent (reply s') then ret tt else handleError e).

(** A request on a route: one that fails validation is answered with the
    validation error and the handler does not run. *)
Definition runRoute (route : Route) : Async unit :=
  s ← getState;
  match validateRequest route (request s) with
  | None => handleError validationError
  | Some r => modify (setRequest r);; guarded (routeHandler route)
  end.

End Validator.

(** ** The body of [POST /] under the validator *)

(** One step of the [properties] keyword: a declared property that is
    present is validated, and replaced by what validation leaves of it. *)
Definition stepProperty `{Collaborators} (k : string) (sub : Schema)
    (fs : list (string * Json)) : option (list (string * Json)) :=
  match assoc k fs with
  | Some x =>
      match ajv sub x with
      | Some x' => Some (setField k x' fs)
      | None => None
      end
  | None => Some fs
  end.

(** The declared properties of a body have, where present, the JSON type
    their schema names, so that nothing is coerced. *)
Definition typedItem (fields : list (string * Json)) : Prop :=
  (forall x, assoc "name" fields = Some x -> exists n, x = JString n) /\
  (forall x, assoc "price" fields = Some x -> exists p, x = JNumber p) /\
  (forall x, assoc "description" fields = Some x -> exists d, x = JString d).

(** What the validator asks of such a body: the price may be missing,
    and nothing is asked of other keys. *)
Definition acceptableItem (fields : list (string * Json)) : Prop :=
  (exists n, assoc "name" fields = Some (JString n) /\
             (3 <= String.length n <= 255)%nat) /\
  (assoc "price" fields = None \/
   exists p, assoc "price" fields = Some (JNumber p) /\
             isInteger p = true /\ (0 <= p)%Q) /\
  (assoc "description" fields = None \/
   exists d, assoc "description" fields = Some (JString d) /\
             (String.length d <= 255)%nat).

(** Such a body as validation leaves it: a missing price is the default,
    and only the declared keys remain. *)
Definition normalizedItem (fields : list (string * Json))
  : list (string * Json) :=
  List.filter (fun kv => bool_decide (In (fst kv) postBodyKeys))
    (match assoc "price" fields with
     | None => (fields ++ [("price", JNumber 0%Q)])%list
     | Some _ => fields
     end).

(** ** routes/item.ts *)

Section Controllers.
Context `{Collaborators}.

Definition notFound : JsError := mkError "Error" None None "item not found".

(** Modelled from the spec: [controllers/item.ts] is not among the
    sources.  The spec gives the persistence contract
    [getAllFrom(restaurantId)], [get(itemId)], [create(fields) -> id],
    [del(itemId)], keyed by public ID; an unmatched ID makes the
    collaborator fail, and so does deleting an item a second time. *)
Definition itemControl_getAllFrom (r : RestaurantId) : Async (list Item) :=
  fun s =>
    (Returned (filter (fun it => restaurantId it = r)
                      (map snd (map_to_list (items s)))),
     logCall (ItemGetAllFrom r) s).

Definition itemControl_get (id : string) : Async Item :=
  fun s =>
    let s' := logCall (ItemGet id) s in
    match items s !! id with
    | Some it => (Returned it, s')
    | None => (Thrown notFound, s')
    end.

Definition itemControl_create (f : ItemFields) : Async string :=
  fun s =>
    let id := newPublicId (items s) f in
    let row := mkItem id (f_name f) (f_price f) (f_description f)
                      (f_restaurantId f) in
    (Returned id, logCall (ItemCreate f) (setItems (<[id := row]> (items s)) s)).

Definition itemControl_del (id : string) : Async unit :=
  fun s =>
    let s' := logCall (ItemDel id) s in
    match items s !! id with
    | Some _ => (Returned tt, setItems (delete id (items s)) s')
    | None => (Thrown notFound, s')
    end.

(** Modelled from the spec: [controllers/statistics.ts] is not among the
    sources; best and worst seller are delegated to it, keyed by
    restaurant ID. *)
Definition statsControl_mostSold (r : RestaurantId) : Async JsVal :=
  fun s => (Returned (mostSold (items s) r), logCall (StatsMostSold r) s).

Definition statsControl_leastSold (r : RestaurantId) : Async JsVal :=
  fun s => (Returned (leastSold (items s) r), logCall (StatsLeastSold r) s).

End Controllers.

Section ItemRoutes.
Context `{Collaborators}.

(** [fastify.authenticateWithRestaurant(request, reply)]: the decorator
    the handlers call.  Its definition is not in the sources, so the
    handlers are stated over any. *)
Variable authenticateWithRestaurant : Async unit.

(** [request.user.restaurant!.id].  The [!] is erased by the compiler:
    the read throws when [restaurant] is [null], and also when
    [request.user] is [null] or is a function, whose [restaurant]
    property is [undefined]. *)
Definition user_restaurant_id : Async RestaurantId :=
  s ← getState;
  match user (request s) with
  | UserRecord u =>
      match restaurant u with
      | Some r => ret (r_id r)
      | None => throw (TypeError "Cannot read properties of null (reading 'id')")
      end
  | UserDeferred _ =>
      throw (TypeError "Cannot read properties of undefined (reading 'id')")
  | UserNull =>
      throw (TypeError "Cannot read properties of null (reading 'restaurant')")
  end.

(** The errors that reading [request.user.restaurant!.id] can throw. *)
Definition userReadErrors : list JsError :=
  [ TypeError "Cannot read properties of null (reading 'restaurant')";
    TypeError "Cannot read properties of undefined (reading 'id')";
    TypeError "Cannot read properties of null (reading 'id')" ].

(** [request.body.key]: throws on a body that is [undefined] or [null]. *)
Definition body_prop (key : string) : Async JsVal :=
  s ← getState;
  match body (request s) with
  | None | Some JNull =>
      throw (TypeError "Cannot read properties of undefined")
  | b => ret (prop key b)
  end.

(** [GET /] *)
Definition get_menu : Async unit :=
  authenticateWithRestaurant;;
  r ← user_restaurant_id;
  menu ← itemControl_getAllFrom r;
  reply_send (PMenu menu).

Definition noAccess : JsError := APIError "You don't have access to this item" 403.

(** [GET /:id] *)
Definition get_item : Async unit :=
  authenticateWithRestaurant;;
  s ← getState;
  let itemId := params_id (request s) in
  item ← itemControl_get itemId;
  r ← user_restaurant_id;
  if bool_decide (restaurantId item ≠ r) then throw noAccess
  else reply_send (PItem item).

(** [POST /] *)
Definition post_item : Async unit :=
  authenticateWithRestaurant;;
  name ← body_prop "name";
  price ← body_prop "price";
  description ← body_prop "description";
  r ← user_restaurant_id;
  itemId ← itemControl_create (mkFields name price description r);
  item ← itemControl_get itemId;
  reply_send (PItem item).

(** [DELETE /:id] *)
Definition delete_item : Async unit :=
  authenticateWithRestaurant;;
  s ← getState;
  let itemId := params_id (request s) in
  item ← itemControl_get itemId;
  r ← user_restaurant_id;
  if bool_decide (restaurantId item ≠ r) then throw noAccess
  else
    itemControl_del itemId;;
    reply_send (PText "Item deleted successfully").

(** [GET /best-seller] and [GET /worst-seller] *)
Definition get_best_seller : Async unit :=
  authenticateWithRestaurant;;
  r ← user_restaurant_id;
  v ← statsControl_mostSold r;
  reply_send (PStats v).

Definition get_worst_seller : Async unit :=
  authenticateWithRestaurant;;
  r ← user_restaurant_id;
  v ← statsControl_leastSold r;
  reply_send (PStats v).

(** The six routes of the plugin, each with the schemas it declares for
    the request.  The response schemas take no part in validation. *)
Definition itemRoutes : list Route :=
  [ mkRoute None None get_menu;
    mkRoute (Some paramsSchema) None get_item;
    mkRoute None (Some postBodySchema) post_item;
    mkRoute (Some paramsSchema) None delete_item;
    mkRoute None None get_best_seller;
    mkRoute None None get_worst_seller ].

End ItemRoutes.

Section RestaurantGate.
Context `{Collaborators}.

Definition noRestaurantMessage : string :=
  "You don't have a restaurant associated with your account".

(** Modelled from the spec: the decorator [authenticateWithRestaurant] is
    not among the sources.  The spec composes it on the base gate; it
    "additionally requires request.user.restaurant to be non-null" and
    "fails with Forbidden (403) and a descriptive message when the
    authenticated user has no associated restaurant".  The user is the
    record the deferred lookup attached by [formatUser] resolves to, and
    it is what the handlers then read as [request.user].  The text of the
    message is not given by the spec. *)
Definition authenticateWithRestaurant : Async unit :=
  authenticate;;
  s ← getState;
  u ← callUser (user (request s));
  match restaurant u with
  | None => throw (APIError noRestaurantMessage 403)
  | Some _ => modify (setUser (UserRecord u))
  end.

End RestaurantGate.

(** ** A concrete deployment, used to run the model *)

Module Demo.

Definition expired : JsError :=
  mkError "FastifyError" (Some "FST_JWT_AUTHORIZATION_TOKEN_EXPIRED")
          (Some 401) "Authorization token expired".
Definition missing : JsError :=
  mkError "FastifyError" (Some "FST_JWT_NO_AUTHORIZATION_IN_COOKIE")
          (Some 401) "No Authorization was found in request.cookies".
Definition invalid : JsError :=
  mkError "FastifyError" (Some "FST_JWT_AUTHORIZATION_TOKEN_INVALID")
          (Some 401) "Authorization token is invalid".
Definition badRequest : JsError :=
  mkError "FastifyError" (Some "FST_JWT_BAD_REQUEST")
          (Some 400) "Format is Authorization: Bearer [token]".
Definition yamlException : JsError :=
  mkError "YAMLException" None None "unexpected end of the stream".
Definition syntaxError : JsError :=
  mkError "SyntaxError" None (Some 400) "Unexpected token".

Definition soup : Json :=
  JObject [("name", JString "Soup"); ("price", JNumber (500 # 1))].

Definition soupWithExtra : Json :=
  JObject [("name", JString "Soup"); ("price", JNumber (500 # 1));
           ("colour", JString "red")].

Definition quoted (s : string) : string :=
  String (Ascii.ascii_of_nat 34) (s +:+ String (Ascii.ascii_of_nat 34) "").

Definition soupYaml : string := "{name: Soup, price: 500}".
Definition soupJson : string :=
  "{" +:+ quoted "name" +:+ ":" +:+ quoted "Soup" +:+ ","
      +:+ quoted "price" +:+ ":500}".

#[local] Instance collaborators : Collaborators := {|
  PROD := false;
  jwtDecode t :=
    match t with
    | None => inl missing
    | Some tok =>
        if String.eqb tok "Basic abc" then inl badRequest
        else if String.eqb tok "token-of-1" then inr (mkPayload 1)
        else if String.eqb tok "token-of-2" then inr (mkPayload 2)
        else if String.eqb tok "old-token-of-1" then inl expired
        else inl invalid
    end;
  YAML_load raw :=
    if String.eqb raw soupYaml then inr (Some soup) else inl yamlException;
  JSON_parse raw :=
    if String.eqb raw soupJson then inr (Some soup) else inl syntaxError;
  pluginParse _ _ :=
    inl (mkError "FastifyError" (Some "FST_ERR_CTP_INVALID_MEDIA_TYPE")
                 (Some 415) "Unsupported Media Type");
  request_type h types :=
    match h with
    | None => match types with t :: _ => TypeString t | [] => TypeFalse end
    | Some t => if bool_decide (t ∈ types) then TypeString t else TypeFalse
    end;
  swagger_json := "{openapi:3.0.3}";
  swagger_yaml := "openapi: 3.0.3";
  newPublicId _ _ := "Zk3vQ9xTn5LpB7aW";
  mostSold _ _ := None;
  leastSold _ _ := None;
  String_of_number q := if Qeq_bool q (500 # 1) then "500" else "0";
  Number_of_string s :=
    if String.eqb s "500" then Some (500 # 1)
    else if String.eqb s "0" then Some (0 # 1)
    else None
|}.

Definition pizzeria : Restaurant := mkRestaurant 10.
Definition trattoria : Restaurant := mkRestaurant 20.

(** User 1 runs the pizzeria; user 2 has no restaurant. *)
Definition owner : User := mkUser 1 (Some pizzeria).
Definition guest : User := mkUser 2 None.

Definition margherita : Item :=
  mkItem "aaaaaaaaaaaaaaaa" (Some (JString "Margherita"))
         (Some (JNumber (900 # 1))) None 10.
Definition risotto : Item :=
  mkItem "bbbbbbbbbbbbbbbb" (Some (JString "Risotto"))
         (Some (JNumber (1200 # 1))) None 20.

Definition usersTable : gmap Z User := <[1 := owner]> (<[2 := guest]> ∅).
Definition itemsTable : gmap string Item :=
  <["aaaaaaaaaaaaaaaa" := margherita]> (<["bbbbbbbbbbbbbbbb" := risotto]> ∅).

(** A request as it reaches a handler: a fresh reply, [request.user]
    still [null]. *)
Definition incoming (tok : option string) (id : string) (b : JsVal) : St :=
  mkSt (mkRequest tok None id b UserNull) freshReply usersTable itemsTable [].

End Demo.


(** ** The documentation of the routes *)

(** A route schema as [@fastify/swagger] hands it to [transform]: the two
    properties the function may assign, and everything else. *)
Record RouteSchema (R : Type) : Type := mkRouteSchema {
  consumes : option (list string);
  produces : option (list string);
  others : R
}.
Arguments mkRouteSchema {R} consumes produces others.
Arguments consumes {R} _.
Arguments produces {R} _.
Arguments others {R} _.

(** [x ??= d]: assigns only when [x] is [null] or [undefined]; an empty
    array is neither. *)
Definition nullishAssign {A} (x : option A) (d : A) : option A :=
  match x with
  | Some v => Some v
  | None => Some d
  end.

Definition defaultConsumes : list string :=
  [ "application/json"; "multipart/form-data"; "text/yaml"; "text/yml";
    "application/yaml"; "application/yml";
    "application/x-www-form-urlencoded" ].

Definition defaultProduces : list string := ["application/json"].

(** [transform: ({ schema, url }) => ...] of the swagger registration; a
    route without schema has [schema] [undefined]. *)
Definition transform {R} (arg : option (RouteSchema R) * string)
  : option (RouteSchema R) * string :=
  let (schema, url) := arg in
  (match schema with
   | Some sc =>
       Some (mkRouteSchema (nullishAssign (consumes sc) defaultConsumes)
                           (nullishAssign (produces sc) defaultProduces)
                           (others sc))
   | None => None
   end, url).

(** The descriptive properties of the schemas of the document routes. *)
Record RouteInfo : Type := mkRouteInfo {
  summary : option string;
  hide : bool;
  description : option string;
  tags : list string
}.

Definition openapiSchema : RouteSchema RouteInfo :=
  mkRouteSchema
    (Some ["application/json"; "text/yaml"; "application/yaml"; "text/yml"])
    (Some ["application/json"; "text/yaml"])
    (mkRouteInfo (Some "OpenAPI Docs") false
                 (Some "OpenAPI documentation for the API")
                 ["documentation"]).

Definition openapiJsonSchema : RouteSchema RouteInfo :=
  mkRouteSchema
    (Some ["application/json"])
    (Some ["application/json"])
    (mkRouteInfo (Some "OpenAPI Docs JSON") true
                 (Some "OpenAPI documentation for the API in JSON format")
                 ["documentation"]).

Definition openapiYamlSchema : RouteSchema RouteInfo :=
  mkRouteSchema
    (Some ["application/yaml"; "text/yaml"; "text/yml"])
    (Some ["text/yaml"])
    (mkRouteInfo (Some "OpenAPI Docs YAML") true
                 (Some "OpenAPI documentation for the API in YAML format")
                 ["documentation"]).

(** [{ schema: { hide: true } }] of the two aliases. *)
Definition hiddenSchema : RouteSchema RouteInfo :=
  mkRouteSchema None None (mkRouteInfo None true None []).

Section Documentation.
Context `{Collaborators}.

(** The routes registered by the plugin of [server.ts] that serves the
    document: path, schema and handler.  The two aliases exist in
    development only. *)
Definition docRoutes : list (string * RouteSchema RouteInfo * Async unit) :=
  [ ("/openapi", openapiSchema, openapi);
    ("/openapi/json", openapiJsonSchema, openapi_json);
    ("/openapi/yaml", openapiYamlSchema, openapi_yaml) ]
  ++ (if DEV then
        [ ("/openapi.json", hiddenSchema,
           reply_type "application/json";; reply_send (PDocument openAPIJson));
          ("/openapi.yaml", hiddenSchema,
           reply_type "text/yaml";; reply_send (PDocument openAPIYaml)) ]
      else []).

End Documentation.

(** ** The other schemas of routes/item.ts *)

Definition numberSchema (minimum : option Q) : Schema :=
  mkSchema TyNumber None None minimum None [] [] true None.

(** The [200] response schema of [GET /:id]. *)
Definition itemResponseSchema : Schema :=
  mkSchema TyObject None None None None
    [ ("id", stringSchema (Some 16%nat) (Some 16%nat));
      ("name", stringSchema (Some 3%nat) (Some 255%nat));
      ("price", numberSchema (Some 0%Q));
      ("description", stringSchema None (Some 255%nat)) ]
    ["id"; "name"; "price"]
    true
    None.

(** The [200] response schema of [GET /]: an array of items. *)
Definition menuResponseSchema : Schema :=
  mkSchema TyArray None None None None [] [] true
    (Some (mkSchema TyObject None None None None
             [ ("description", stringSchema None None);
               ("id", stringSchema (Some 16%nat) (Some 16%nat));
               ("name", stringSchema (Some 3%nat) (Some 255%nat));
               ("price", numberSchema (Some 0%Q)) ]
             ["id"; "name"; "price"]
             true
             None)).

(** A property that is [undefined] is no property of the object a
    schema sees. *)
Definition defined (key : string) (v : JsVal) : list (string * Json) :=
  match v with
  | Some x => [(key, x)]
  | None => []
  end.

(** An item row as the object a handler sends. *)
Definition itemJson (it : Item) : Json :=
  JObject ([("id", JString (i_id it))]
           ++ defined "name" (i_name it)
           ++ defined "price" (i_price it)
           ++ defined "description" (i_description it)
           ++ [("restaurantId", JNumber (inject_Z (restaurantId it)))]).

(** The row [POST /] has created from the fields of a body. *)
Definition createdRow (id : string) (fields : list (string * Json))
    (r : RestaurantId) : Item :=
  mkItem id (assoc "name" fields) (assoc "price" fields)
         (assoc "description" fields) r.

(** ** Reads and writes of the controllers *)

(** The two controller calls that change the items. *)
Definition isWrite (c : Call) : bool :=
  match c with
  | ItemCreate _ | ItemDel _ => true
  | _ => false
  end.
(** * Properties *)

(** ** Running an asynchronous function *)

Lemma run_bind {A B} (m : Async A) (k : A -> Async B) (s : St) :
  (m ≫= k) s =
  match m s with
  | (Returned a, s') => k a s'
  | (Thrown e, s') => (Thrown e, s')
  end.
Proof. reflexivity. Qed.

Lemma run_bind_returned {A B} (m : Async A) (k : A -> Async B) s a s' :
  m s = (Returned a, s') -> (m ≫= k) s = k a s'.
Proof. intros Hm. rewrite run_bind, Hm. reflexivity. Qed.

Lemma run_bind_thrown {A B} (m : Async A) (k : A -> Async B) s e s' :
  m s = (Thrown e, s') -> (m ≫= k) s = (Thrown e, s').
Proof. intros Hm. rewrite run_bind, Hm. reflexivity. Qed.

(** Unfolds a handler down to the run of its gate. *)
Ltac run_handler :=
  unfold get_menu, get_item, post_item, delete_item, get_best_seller,
         get_worst_seller, body_prop, user_restaurant_id,
         itemControl_getAllFrom, itemControl_get, itemControl_create,
         itemControl_del, statsControl_mostSold, statsControl_leastSold,
         reply_send, modify, getState, throw;
  unfold mbind, async_bind, bind, mret, async_ret, ret;
  cbn [fst snd].

(** Splits a call log into what was added and what was there. *)
Ltac log_prefix :=
  first [ exists []; split; [reflexivity |]
        | eexists [_]; split; [reflexivity |]
        | eexists [_; _]; split; [reflexivity |] ].

(** ** The framework's error path and the route lifecycle *)

Lemma errorStatus_own (e : JsError) (n current : Z) :
  statusCode e = Some n -> 400 <= n -> errorStatus e current = n.
Proof.
  intros He Hn. unfold errorStatus. rewrite He.
  destruct (Z.leb_spec 400 n); [reflexivity | lia].
Qed.

Lemma errorStatus_fallback (e : JsError) (current : Z) :
  (forall n, statusCode e = Some n -> n < 400) ->
  400 <= current ->
  errorStatus e current = current.
Proof.
  intros He Hc. unfold errorStatus.
  destruct (Z.leb_spec 400 current); [| lia].
  destruct (statusCode e) as [n |]; [| reflexivity].
  specialize (He n eq_refl).
  destruct (Z.leb_spec 400 n); [lia | reflexivity].
Qed.

Lemma handleError_run (e : JsError) (s : St) :
  handleError e s
  = (Returned tt,
     setReply (mkReply true (errorStatus e (status (reply s)))
                       (contentType (reply s)) (Some (PError e))) s).
Proof. reflexivity. Qed.

Lemma runRoute_refused `{Collaborators} (route : Route) (s : St) :
  validateRequest route (request s) = None ->
  runRoute route s = handleError validationError s.
Proof.
  intros Hv. unfold runRoute. rewrite run_bind. cbn. rewrite Hv. reflexivity.
Qed.

Lemma runRoute_accepted `{Collaborators} (route : Route) (s : St) (r : Request) :
  validateRequest route (request s) = Some r ->
  runRoute route s = guarded (routeHandler route) (setRequest r s).
Proof.
  intros Hv. unfold runRoute. rewrite run_bind. cbn. rewrite Hv. reflexivity.
Qed.

Lemma guarded_thrown (handler : Async unit) (s s1 : St) (e : JsError) :
  handler s = (Thrown e, s1) ->
  sent (reply s1) = false ->
  guarded handler s = handleError e s1.
Proof.
  intros Hh Hs. unfold guarded, tryCatch. rewrite Hh. rewrite run_bind. cbn.
  rewrite Hs. reflexivity.
Qed.

Lemma guarded_returned (handler : Async unit) (s s1 : St) :
  handler s = (Returned tt, s1) ->
  guarded handler s = (Returned tt, s1).
Proof. intros Hh. unfold guarded, tryCatch. rewrite Hh. reflexivity. Qed.

(** Validation changes nothing of a request but its body. *)
Lemma validateRequest_keeps `{Collaborators} (route : Route) (r r' : Request) :
  validateRequest route r = Some r' ->
  token r' = token r /\ accept r' = accept r /\
  params_id r' = params_id r /\ user r' = user r.
Proof.
  unfold validateRequest.
  destruct (match routeParams route with
            | Some sch => bool_decide (is_Some (ajv sch (paramsOf r)))
            | None => true
            end); [| discriminate].
  destruct (routeBody route) as [sch |].
  - destruct (body r) as [b |]; [| discriminate].
    destruct (ajv sch b) as [b' |]; [| discriminate].
    intros Heq. injection Heq as <-. repeat split.
  - intros Heq. injection Heq as <-. repeat split.
Qed.

(** ** The base gate *)

Lemma authenticate_rejected `{Collaborators} (s : St) (err : JsError) :
  jwtDecode (token (request s)) = inl err ->
  authenticate s = (Returned tt, setReply (rejection err (reply s)) s).
Proof.
  intros Hv. unfold authenticate, tryCatch, jwtVerify.
  rewrite run_bind. cbn. rewrite Hv. cbn.
  unfold rejection. destruct (bool_decide (code err = Some TOKEN_EXPIRED));
    reflexivity.
Qed.

Lemma authenticate_verified `{Collaborators} (s : St) (p : JwtPayload) :
  jwtDecode (token (request s)) = inr p ->
  authenticate s = (Returned tt, setUser (UserDeferred (p_id p)) s).
Proof.
  intros Hv. unfold authenticate, tryCatch, jwtVerify.
  rewrite run_bind. cbn. rewrite Hv. reflexivity.
Qed.

(** C1.  What [authenticate] answers when token verification fails.  The
    reply is sent and carries the verification error.  Its status is the
    error's own [statusCode] whenever that is an error status, because the
    error is handed to [reply.send]; the 403 for the expiry error and the
    401 for every other error, which the code sets with [reply.code], are
    the status only for an error without an error status of its own.  The
    errors of the token library carry one, so an expired token is not
    answered with 403. *)
Theorem authenticate_status_follows_error `{Collaborators}
    (s : St) (err : JsError) :
  jwtDecode (token (request s)) = inl err ->
  let r := reply (snd (authenticate s)) in
  sent r = true /\
  payload r = Some (PError err) /\
  (forall n, statusCode err = Some n -> 400 <= n -> status r = n) /\
  ((forall n, statusCode err = Some n -> n < 400) ->
   (code err = Some TOKEN_EXPIRED -> status r = 403) /\
   (code err <> Some TOKEN_EXPIRED -> status r = 401)).
Proof.
  intros Hv. rewrite (authenticate_rejected s err Hv). cbn.
  split; [reflexivity |]. split; [reflexivity |]. split.
  - intros n Hn Hle. apply (errorStatus_own err n _ Hn Hle).
  - intros Hnone. split; intros Hc.
    + rewrite bool_decide_eq_true_2 by exact Hc.
      apply errorStatus_fallback; [exact Hnone | lia].
    + rewrite bool_decide_eq_false_2 by exact Hc.
      apply errorStatus_fallback; [exact Hnone | lia].
Qed.

(** C10.  [authenticate] never throws.  When verification fails it has
    sent the reply that carries the verification error and returns like a
    successful call, so whatever the caller does after
    [await fastify.authenticate(...)] runs next, on the state in which the
    reply has already left.  The status of that reply is the error's own
    when it has an error status, as for C1, so it need not be 401 or
    403. *)
Theorem authenticate_returns_normally `{Collaborators} (s : St) :
  fst (authenticate s) = Returned tt /\
  forall err, jwtDecode (token (request s)) = inl err ->
    sent (reply (snd (authenticate s))) = true /\
    payload (reply (snd (authenticate s))) = Some (PError err) /\
    (forall n, statusCode err = Some n -> 400 <= n ->
       status (reply (snd (authenticate s))) = n) /\
    forall (B : Type) (k : unit -> Async B),
      (authenticate ≫= k) s = k tt (snd (authenticate s)).
Proof.
  split.
  - destruct (jwtDecode (token (request s))) as [err | p] eqn:Hv.
    + rewrite (authenticate_rejected s err Hv). reflexivity.
    + rewrite (authenticate_verified s p Hv). reflexivity.
  - intros err Hv. rewrite (authenticate_rejected s err Hv). cbn.
    split; [reflexivity |]. split; [reflexivity |]. split.
    + intros n Hn Hle. apply (errorStatus_own err n _ Hn Hle).
    + intros B k. apply run_bind_returned, authenticate_rejected, Hv.
Qed.

(** The base gate alone attaches the deferred lookup built by
    [formatUser] and does not run it. *)
Lemma authenticate_attaches_deferred_user `{Collaborators}
    (s : St) (p : JwtPayload) :
  jwtDecode (token (request s)) = inr p ->
  fst (authenticate s) = Returned tt /\
  user (request (snd (authenticate s))) = UserDeferred (p_id p) /\
  calls (snd (authenticate s)) = calls s /\
  forall (s' : St),
    callUser (user (request (snd (authenticate s)))) s'
    = userControl_get (p_id p) s'.
Proof.
  intros Hv. rewrite (authenticate_verified s p Hv). cbn. repeat split.
Qed.

(** ** The negotiated document *)

(** What the handler sends depends on the negotiated type alone. *)
Lemma openapi_by_type `{Collaborators} (s : St) :
  openapi s =
  if bool_decide (negotiatedType (accept (request s)) = Some "application/json")
  then sendJson s else sendYaml s.
Proof.
  unfold openapi. rewrite run_bind. cbn.
  destruct (bool_decide _); reflexivity.
Qed.

Lemma openapi_serves `{Collaborators} (s : St) (t : string) :
  negotiatedType (accept (request s)) = Some t ->
  openapi s = (Returned tt, setReply (representation t (reply s)) s).
Proof.
  intros Hn. rewrite openapi_by_type, Hn. unfold representation.
  destruct (String.eqb_spec t "application/json") as [-> | Hne].
  - rewrite bool_decide_eq_true_2 by reflexivity.
    unfold sendJson, openAPIJson. destruct PROD; reflexivity.
  - rewrite bool_decide_eq_false_2 by congruence.
    unfold sendYaml, openAPIYaml. destruct PROD; reflexivity.
Qed.

(** C6.  [GET /openapi] answers with the representation of the type that
    [request.type] picks among [application/json], [application/yaml],
    [text/yaml] and [text/yml]: a media type it returns is the one served,
    [false] (no match) is served as [application/json], and of an array
    the first entry is served.  A request without [Accept] header is
    served [application/json], both when the negotiation library reports no
    match for it and when it returns the first type offered.  The
    representation is the JSON document for [application/json] and the
    YAML document for any other type. *)
Theorem openapi_serves_negotiated_type `{Collaborators} (s : St) :
  let answer :=
    request_type (accept (request s))
      ["application/json"; "application/yaml"; "text/yaml"; "text/yml"] in
  let served (t : string) :=
    (Returned tt, setReply (representation t (reply s)) s) in
  (forall t, answer = TypeString t -> t <> "" -> openapi s = served t) /\
  (answer = TypeFalse -> openapi s = served "application/json") /\
  (forall t ts, answer = TypeArray (t :: ts) -> openapi s = served t) /\
  (accept (request s) = None ->
   answer = TypeFalse \/ answer = TypeString "application/json" ->
   openapi s = served "application/json").
Proof.
  intros answer served.
  assert (Hstring : forall t, answer = TypeString t -> t <> "" ->
                              openapi s = served t).
  { intros t Ht Hne. apply openapi_serves.
    unfold negotiatedType, validType. fold answer in Ht.
    change (request_type (accept (request s)) supportedTypes) with answer.
    rewrite Ht. cbn. destruct (String.eqb_spec t ""); [contradiction | reflexivity]. }
  assert (Hfalse : answer = TypeFalse -> openapi s = served "application/json").
  { intros Hf. apply openapi_serves. unfold negotiatedType, validType.
    change (request_type (accept (request s)) supportedTypes) with answer.
    rewrite Hf. reflexivity. }
  split; [exact Hstring |]. split; [exact Hfalse |]. split.
  - intros t ts Ha. apply openapi_serves. unfold negotiatedType, validType.
    change (request_type (accept (request s)) supportedTypes) with answer.
    rewrite Ha. reflexivity.
  - intros _ [Hf | Hj]; [exact (Hfalse Hf) |].
    apply (Hstring _ Hj). discriminate.
Qed.

(** C8.  Take any request to [GET /openapi] that negotiates
    [application/json] and any request to [GET /openapi/json] in the same
    process, whatever its [Accept] header.  Both answers carry the same
    body: outside production the module-level [openAPIJson], sent with type
    [application/json]; in production the file [/public/openapi.json]. *)
Theorem openapi_json_agrees `{Collaborators} (s1 s2 : St) :
  negotiatedType (accept (request s1)) = Some "application/json" ->
  payload (reply (snd (openapi s1))) = payload (reply (snd (openapi_json s2))) /\
  (PROD = false ->
     payload (reply (snd (openapi_json s2))) = Some (PDocument openAPIJson) /\
     openAPIJson = Some swagger_json /\
     contentType (reply (snd (openapi s1))) = Some "application/json" /\
     contentType (reply (snd (openapi_json s2))) = Some "application/json") /\
  (PROD = true ->
     payload (reply (snd (openapi_json s2)))
     = Some (PFile "/public/openapi.json")).
Proof.
  intros Hn. rewrite openapi_by_type, Hn.
  rewrite bool_decide_eq_true_2 by reflexivity.
  unfold openapi_json, sendJson, openAPIJson.
  split; [destruct PROD; reflexivity |].
  split; intros Hp; rewrite Hp; cbn; repeat split; reflexivity.
Qed.

(** ** The YAML body parser *)

(** C7.  For each of the four YAML content types, a body that
    [YAML.load] rejects reaches [done] as an error with status 400, and the
    response to it has status 400 (so none of the 500 class) without the
    route being run.  A body that [YAML.load] accepts is handed on as the
    loaded value itself, so it is parsed exactly like a JSON body that
    denotes the same value. *)
Theorem yaml_body_parsing `{Collaborators} (ct raw : string) :
  ct ∈ yamlContentTypes ->
  (forall err, YAML_load raw = inl err ->
     parseBody ct raw = inl (setStatusCode 400 err) /\
     forall (route : JsVal -> Async unit) (s : St),
       reply s = freshReply ->
       let s' := snd (receive ct raw route s) in
       status (reply s') = 400 /\ sent (reply s') = true /\
       payload (reply s') = Some (PError (setStatusCode 400 err)) /\
       calls s' = calls s /\ items s' = items s) /\
  (forall v, YAML_load raw = inr v ->
     parseBody ct raw = inr v /\
     forall rawJson, JSON_parse rawJson = inr v ->
       parseBody ct raw = parseBody "application/json" rawJson /\
       forall route, receive ct raw route
                     = receive "application/json" rawJson route).
Proof.
  intros Hct.
  assert (Hp : parseBody ct raw = yamlParser raw).
  { unfold parseBody. rewrite bool_decide_eq_true_2; auto. }
  split.
  - intros err Hl.
    assert (Hperr : parseBody ct raw = inl (setStatusCode 400 err)).
    { rewrite Hp. unfold yamlParser. rewrite Hl. reflexivity. }
    split; [exact Hperr |].
    intros route s Hr. unfold receive. rewrite Hperr.
    rewrite handleError_run, Hr. cbn. repeat split.
  - intros v Hl.
    assert (Hpv : parseBody ct raw = inr v).
    { rewrite Hp. unfold yamlParser. rewrite Hl. reflexivity. }
    split; [exact Hpv |].
    intros rawJson Hj.
    assert (Hpj : parseBody "application/json" rawJson = inr v).
    { unfold parseBody. rewrite bool_decide_eq_false_2.
      - cbn. exact Hj.
      - unfold yamlContentTypes. intros Hin.
        repeat (apply elem_of_cons in Hin as [Hin | Hin]; [discriminate |]).
        inversion Hin. }
    split; [congruence |].
    intros route. unfold receive. rewrite Hpv, Hpj. reflexivity.
Qed.

(** ** The restaurant gate *)

Lemma gate_without_restaurant `{Collaborators} (s : St) (p : JwtPayload) (u : User) :
  jwtDecode (token (request s)) = inr p ->
  users s !! p_id p = Some u ->
  restaurant u = None ->
  authenticateWithRestaurant s
  = (Thrown (APIError noRestaurantMessage 403),
     logCall (UserGet (p_id p)) (setUser (UserDeferred (p_id p)) s)).
Proof.
  intros Hv Hu Hr. unfold authenticateWithRestaurant.
  rewrite (run_bind_returned _ _ _ _ _ (authenticate_verified s p Hv)).
  rewrite run_bind. cbn. unfold userControl_get. rewrite run_bind. cbn.
  rewrite Hu. cbn. rewrite Hr. reflexivity.
Qed.

Lemma gate_with_restaurant `{Collaborators} (s : St) (p : JwtPayload)
    (u : User) (r : Restaurant) :
  jwtDecode (token (request s)) = inr p ->
  users s !! p_id p = Some u ->
  restaurant u = Some r ->
  authenticateWithRestaurant s
  = (Returned tt, setUser (UserRecord u) (logCall (UserGet (p_id p)) s)).
Proof.
  intros Hv Hu Hr. unfold authenticateWithRestaurant.
  rewrite (run_bind_returned _ _ _ _ _ (authenticate_verified s p Hv)).
  rewrite run_bind. cbn. unfold userControl_get. rewrite run_bind. cbn.
  rewrite Hu. cbn. rewrite Hr. reflexivity.
Qed.

(** Every handler of [routes/item.ts] awaits the gate first: what the gate
    throws, the handler throws, from the state the gate left. *)
Lemma handler_stops_at_gate `{Collaborators} (gate : Async unit)
    (route : Route) (s s1 : St) (e : JsError) :
  In route (itemRoutes gate) ->
  gate s = (Thrown e, s1) ->
  routeHandler route s = (Thrown e, s1).
Proof.
  unfold itemRoutes. cbn [In].
  intros [<- | [<- | [<- | [<- | [<- | [<- | []]]]]]] Hg;
    apply run_bind_thrown, Hg.
Qed.

(** The gate returns normally only for a verified token whose user
    exists and has a restaurant, and then has put the record in
    [request.user]. *)
Lemma gate_passes `{Collaborators} (s s1 : St) :
  user (request s) = UserNull ->
  authenticateWithRestaurant s = (Returned tt, s1) ->
  exists p u r,
    jwtDecode (token (request s)) = inr p /\
    users s !! p_id p = Some u /\
    restaurant u = Some r /\
    s1 = setUser (UserRecord u) (logCall (UserGet (p_id p)) s).
Proof.
  intros Hnull Hg.
  destruct (jwtDecode (token (request s))) as [err | p] eqn:Hv.
  - exfalso. revert Hg. unfold authenticateWithRestaurant.
    rewrite (run_bind_returned _ _ _ _ _ (authenticate_rejected s err Hv)).
    rewrite run_bind. cbn. rewrite Hnull. cbn. discriminate.
  - destruct (users s !! p_id p) as [u |] eqn:Hu.
    + destruct (restaurant u) as [r |] eqn:Hr.
      * rewrite (gate_with_restaurant s p u r Hv Hu Hr) in Hg.
        injection Hg as <-. exists p, u, r. repeat split; assumption.
      * rewrite (gate_without_restaurant s p u Hv Hu Hr) in Hg.
        discriminate Hg.
    + exfalso. revert Hg. unfold authenticateWithRestaurant.
      rewrite (run_bind_returned _ _ _ _ _ (authenticate_verified s p Hv)).
      rewrite run_bind. cbn. unfold userControl_get. rewrite run_bind. cbn.
      rewrite Hu. cbn. discriminate.
Qed.

(** C3 (as amended).  Take any of the six item routes, gated by
    [authenticateWithRestaurant], and a request whose token verifies, for
    a user that has no restaurant.  If the request passes the schemas of
    the route, the response has status 403 and carries the error of the
    gate with its message, and the only controller call made is the lookup
    of the user: no item or statistics operation runs and the items are as
    before.  If the request fails the schemas of the route, it is answered
    400 and the gate does not run at all. *)
Theorem no_restaurant_is_forbidden `{Collaborators}
    (route : Route) (s : St) (p : JwtPayload) (u : User) :
  In route (itemRoutes authenticateWithRestaurant) ->
  reply s = freshReply ->
  jwtDecode (token (request s)) = inr p ->
  users s !! p_id p = Some u ->
  restaurant u = None ->
  let s' := snd (runRoute route s) in
  (is_Some (validateRequest route (request s)) ->
   sent (reply s') = true /\
   status (reply s') = 403 /\
   payload (reply s') = Some (PError (APIError noRestaurantMessage 403)) /\
   noRestaurantMessage <> "" /\
   items s' = items s /\
   calls s' = UserGet (p_id p) :: calls s) /\
  (validateRequest route (request s) = None ->
   sent (reply s') = true /\
   status (reply s') = 400 /\
   payload (reply s') = Some (PError validationError) /\
   items s' = items s /\
   calls s' = calls s).
Proof.
  intros Hin Hfresh Hv Hu Hr s'. subst s'. split.
  - intros [r' Hr'].
    destruct (validateRequest_keeps route _ r' Hr') as (Htok & _ & _ & _).
    assert (Hgate : authenticateWithRestaurant (setRequest r' s)
      = (Thrown (APIError noRestaurantMessage 403),
         logCall (UserGet (p_id p))
           (setUser (UserDeferred (p_id p)) (setRequest r' s)))).
    { apply (gate_without_restaurant (setRequest r' s) p u).
      - cbn. rewrite Htok. exact Hv.
      - exact Hu.
      - exact Hr. }
    rewrite (runRoute_accepted route s r' Hr').
    rewrite (guarded_thrown _ _ _ _
               (handler_stops_at_gate _ route _ _ _ Hin Hgate))
      by (cbn; rewrite Hfresh; reflexivity).
    rewrite handleError_run. cbn.
    repeat split. intros Hm. discriminate Hm.
  - intros Hnone. rewrite (runRoute_refused route s Hnone).
    rewrite handleError_run, Hfresh. cbn. repeat split.
Qed.

(** C9.  On each of the six item routes, a request that gets past the
    gate [authenticateWithRestaurant] has a verified token, and by the
    time the handler reads [request.user] it holds the user record that
    the lookup keyed by the token's user ID has returned.  The handler's
    read of [request.user.restaurant.id] is therefore the restaurant of
    that record, and no handler fails on that read. *)
Theorem user_is_resolved_for_handlers `{Collaborators}
    (route : Route) (s s1 : St) :
  In route (itemRoutes authenticateWithRestaurant) ->
  user (request s) = UserNull ->
  authenticateWithRestaurant s = (Returned tt, s1) ->
  exists p u r,
    jwtDecode (token (request s)) = inr p /\
    users s !! p_id p = Some u /\
    restaurant u = Some r /\
    user (request s1) = UserRecord u /\
    calls s1 = UserGet (p_id p) :: calls s /\
    user_restaurant_id s1 = (Returned (r_id r), s1) /\
    forall e, In e userReadErrors -> fst (routeHandler route s) <> Thrown e.
Proof.
  intros Hin Hnull Hg.
  destruct (gate_passes s s1 Hnull Hg) as (p & u & r & Hv & Hu & Hr & ->).
  exists p, u, r.
  split; [exact Hv |]. split; [exact Hu |]. split; [exact Hr |].
  split; [reflexivity |]. split; [reflexivity |]. split.
  { unfold user_restaurant_id. rewrite run_bind. cbn. rewrite Hr. reflexivity. }
  intros e He.
  unfold itemRoutes in Hin. cbn [In] in Hin. unfold userReadErrors in He.
  cbn [In] in He.
  destruct Hin as [<- | [<- | [<- | [<- | [<- | [<- | []]]]]]];
    cbn [routeHandler]; run_handler; rewrite Hg; cbn; rewrite ?Hr; cbn;
    repeat (case_match; simplify_eq; cbn; rewrite ?Hr; cbn);
    destruct He as [<- | [<- | [<- | []]]]; intros Hthrown;
    discriminate Hthrown.
Qed.

(** ** Ownership of an item *)

Lemma read_restaurant_id `{Collaborators} (s : St) (u : User) (r : Restaurant) :
  user (request s) = UserRecord u ->
  restaurant u = Some r ->
  user_restaurant_id s = (Returned (r_id r), s).
Proof.
  intros Hu Hr. unfold user_restaurant_id. rewrite run_bind. cbn.
  rewrite Hu, Hr. reflexivity.
Qed.

(** C2.  Let the gate pass with the caller's user record in
    [request.user], and let the item named by [:id] exist.  If the item
    belongs to another restaurant, [GET /:id] and [DELETE /:id] both throw
    the typed error with status 403; on that branch the only controller
    call is the [get], [itemControl.del] is not called and the items are
    unchanged.  If the item belongs to the caller's restaurant, [DELETE]
    calls [itemControl.del] on it and sends the plain text
    "Item deleted successfully". *)
Theorem item_access_is_owner_only `{Collaborators} (gate : Async unit)
    (s s1 : St) (u : User) (r : Restaurant) (it : Item) :
  gate s = (Returned tt, s1) ->
  user (request s1) = UserRecord u ->
  restaurant u = Some r ->
  items s1 !! params_id (request s1) = Some it ->
  let id := params_id (request s1) in
  (restaurantId it <> r_id r ->
     get_item gate s = (Thrown noAccess, logCall (ItemGet id) s1) /\
     delete_item gate s = (Thrown noAccess, logCall (ItemGet id) s1) /\
     statusCode noAccess = Some 403 /\
     calls (snd (delete_item gate s)) = ItemGet id :: calls s1 /\
     items (snd (delete_item gate s)) = items s1) /\
  (restaurantId it = r_id r ->
     fst (delete_item gate s) = Returned tt /\
     calls (snd (delete_item gate s)) = ItemDel id :: ItemGet id :: calls s1 /\
     items (snd (delete_item gate s)) = delete id (items s1) /\
     sent (reply (snd (delete_item gate s))) = true /\
     payload (reply (snd (delete_item gate s)))
     = Some (PText "Item deleted successfully")).
Proof.
  intros Hg Hu Hr Hit id.
  assert (Hget : itemControl_get id s1 = (Returned it, logCall (ItemGet id) s1)).
  { unfold itemControl_get. subst id. rewrite Hit. reflexivity. }
  assert (Hrid : user_restaurant_id (logCall (ItemGet id) s1)
                 = (Returned (r_id r), logCall (ItemGet id) s1)).
  { apply (read_restaurant_id _ u r); [exact Hu | exact Hr]. }
  assert (Hd : delete_item gate s
    = (if bool_decide (restaurantId it ≠ r_id r) then throw noAccess
       else itemControl_del id;; reply_send (PText "Item deleted successfully"))
        (logCall (ItemGet id) s1)).
  { unfold delete_item. rewrite (run_bind_returned _ _ _ _ _ Hg).
    rewrite run_bind. cbn. fold id.
    rewrite (run_bind_returned _ _ _ _ _ Hget).
    rewrite (run_bind_returned _ _ _ _ _ Hrid). reflexivity. }
  assert (Hgi : get_item gate s
    = (if bool_decide (restaurantId it ≠ r_id r) then throw noAccess
       else reply_send (PItem it)) (logCall (ItemGet id) s1)).
  { unfold get_item. rewrite (run_bind_returned _ _ _ _ _ Hg).
    rewrite run_bind. cbn. fold id.
    rewrite (run_bind_returned _ _ _ _ _ Hget).
    rewrite (run_bind_returned _ _ _ _ _ Hrid). reflexivity. }
  rewrite Hd, Hgi. split.
  - intros Hne. rewrite bool_decide_eq_true_2 by exact Hne. repeat split.
  - intros Heq.
    rewrite bool_decide_eq_false_2 by (intros Hne; exact (Hne Heq)).
    assert (Hit' : items s1 !! id = Some it) by exact Hit.
    rewrite run_bind. unfold itemControl_del. cbn. fold id. rewrite Hit'.
    cbn. repeat split.
Qed.

(** ** The body schema of [POST /] *)

Lemma validate_string (lo hi : option nat) (v : Json) :
  validate (stringSchema lo hi) v = true <->
  exists s, v = JString s /\
            atLeast Nat.leb lo (String.length s) = true /\
            atMost Nat.leb hi (String.length s) = true.
Proof.
  destruct v; cbn; split;
    try (intros Hf; discriminate Hf);
    try (intros (s0 & Hs & _); discriminate Hs).
  - intros Hv. apply andb_true_iff in Hv. exists s. tauto.
  - intros (s0 & Hs & Hlo & Hhi). injection Hs as <-.
    apply andb_true_iff. tauto.
Qed.

Lemma declared_property (k : string) :
  is_Some (assoc k
    [ ("name", stringSchema (Some 3%nat) (Some 255%nat));
      ("price", mkSchema TyInteger None None (Some 0%Q) (Some (JNumber 0%Q))
                         [] [] true None);
      ("description", stringSchema None (Some 255%nat)) ])
  <-> In k postBodyKeys.
Proof.
  unfold postBodyKeys. cbn [assoc In].
  destruct (String.eqb_spec "name" k) as [<- | Hn]; [split; eauto |].
  destruct (String.eqb_spec "price" k) as [<- | Hp]; [split; eauto |].
  destruct (String.eqb_spec "description" k) as [<- | Hd]; [split; eauto |].
  split.
  - intros [x Hx]. discriminate Hx.
  - intros [H1 | [H2 | [H3 | []]]]; contradiction.
Qed.

(** Plain validation against the body schema, nothing coerced, filled in
    or removed. *)
Lemma strict_post_body (fields : list (string * Json)) :
  validate postBodySchema (JObject fields) = true <-> wellFormedItem fields.
Proof.
  unfold postBodySchema, wellFormedItem.
  cbn [validate]. rewrite !andb_true_iff. cbn [forallb orb].
  rewrite !andb_true_iff, !bool_decide_eq_true, forallb_forall.
  split.
  - intros (((Hname & Hprice & _) & Hn & Hp & Hd & _) & Hkeys).
    destruct Hname as [n Hname]. destruct Hprice as [p Hprice].
    rewrite Hname in Hn. rewrite Hprice in Hp.
    apply validate_string in Hn as (sn & -> & Hlo & Hhi).
    cbn [atLeast atMost] in Hlo, Hhi. apply Nat.leb_le in Hlo, Hhi.
    destruct p as [| | q | | |]; cbn [validate atLeast] in Hp;
      try discriminate Hp.
    apply andb_true_iff in Hp as [Hint Hmin].
    apply Qle_bool_iff in Hmin.
    repeat split.
    + exists sn. auto.
    + exists q. auto.
    + destruct (assoc "description" fields) as [d |]; [right | left; reflexivity].
      apply validate_string in Hd as (sd & -> & _ & Hhi').
      cbn [atMost] in Hhi'. apply Nat.leb_le in Hhi'. exists sd. auto.
    + intros k x Hin. apply declared_property.
      specialize (Hkeys (k, x) Hin). apply bool_decide_eq_true in Hkeys.
      exact Hkeys.
  - intros ((n & Hname & Hlo & Hhi) & (p & Hprice & Hint & Hmin) & Hdesc & Hkeys).
    rewrite Hname, Hprice. repeat split; eauto.
    + apply validate_string. exists n. cbn [atLeast atMost].
      split; [reflexivity |]. split; apply Nat.leb_le; lia.
    + cbn [validate atLeast]. apply andb_true_iff. split; [exact Hint |].
      apply Qle_bool_iff. exact Hmin.
    + destruct Hdesc as [-> | (d & -> & Hd)]; [reflexivity |].
      apply validate_string. exists d. cbn [atLeast atMost].
      split; [reflexivity |]. split; [reflexivity | apply Nat.leb_le; assumption].
    + intros [k x] Hin. apply bool_decide_eq_true. cbn [fst].
      apply declared_property. exact (Hkeys k x Hin).
Qed.

(** *** Lookups in an object that validation changes *)

Lemma assoc_app {A} (k : string) (l1 l2 : list (string * A)) :
  assoc k (l1 ++ l2)%list
  = match assoc k l1 with
    | Some x => Some x
    | None => assoc k l2
    end.
Proof.
  induction l1 as [| [k1 v1] l1 IH]; cbn; [reflexivity |].
  destruct (String.eqb k1 k); [reflexivity | exact IH].
Qed.

Lemma assoc_filter {A} (P : string -> bool) (k : string)
    (l : list (string * A)) :
  assoc k (List.filter (fun kv => P (fst kv)) l)
  = if P k then assoc k l else None.
Proof.
  induction l as [| [k1 v1] l IH]; cbn [List.filter assoc fst];
    [destruct (P k); reflexivity |].
  destruct (String.eqb_spec k1 k) as [-> | Hne].
  - destruct (P k) eqn:HP; cbn [assoc].
    + rewrite String.eqb_refl. reflexivity.
    + rewrite IH. reflexivity.
  - destruct (P k1); cbn [assoc].
    + destruct (String.eqb_spec k1 k); [contradiction | exact IH].
    + exact IH.
Qed.

Lemma assoc_setField_eq (k : string) (x : Json) (l : list (string * Json)) :
  assoc k (setField k x l)
  = match assoc k l with
    | Some _ => Some x
    | None => None
    end.
Proof.
  induction l as [| [k1 v1] l IH]; cbn; [reflexivity |].
  destruct (String.eqb k1 k) eqn:He; cbn; rewrite He; [reflexivity | exact IH].
Qed.

Lemma assoc_setField_ne (k k' : string) (x : Json) (l : list (string * Json)) :
  k <> k' -> assoc k (setField k' x l) = assoc k l.
Proof.
  intros Hne. induction l as [| [k1 v1] l IH]; cbn; [reflexivity |].
  destruct (String.eqb_spec k1 k') as [-> | Hne1]; cbn.
  - destruct (String.eqb_spec k' k); [congruence | reflexivity].
  - destruct (String.eqb k1 k); [reflexivity | exact IH].
Qed.

Lemma setField_same (k : string) (x : Json) (l : list (string * Json)) :
  assoc k l = Some x -> setField k x l = l.
Proof.
  induction l as [| [k1 v1] l IH]; cbn; [reflexivity |].
  destruct (String.eqb_spec k1 k) as [-> | Hne].
  - intros Heq. injection Heq as ->. reflexivity.
  - intros Heq. rewrite (IH Heq). reflexivity.
Qed.

Lemma in_setField_key (k k' : string) (v x : Json) (l : list (string * Json)) :
  In (k, v) (setField k' x l) -> exists v', In (k, v') l.
Proof.
  induction l as [| [k1 v1] l IH]; cbn; [intros [] |].
  destruct (String.eqb_spec k1 k') as [-> | Hne]; cbn.
  - intros [Heq | Hin]; [injection Heq as <- _; eauto | eauto].
  - intros [Heq | Hin]; [eauto |].
    destruct (IH Hin) as [v' Hv']. eauto.
Qed.

(** *** The validator on the body schema *)

Lemma coerceType_string `{Collaborators} (x v : Json) :
  coerceType TyString x = Some v -> exists s, v = JString s.
Proof.
  unfold coerceType.
  destruct x as [| b | q | s | [| y [| z l]] | fs]; cbn;
    try (intros Heq; injection Heq as <-; eauto);
    try discriminate.
  destruct y; cbn; try discriminate;
    intros Heq; injection Heq as <-; eauto.
Qed.

Lemma coerceScalar_integer `{Collaborators} (x v : Json) :
  coerceScalar TyInteger x = Some v ->
  exists q, v = JNumber q /\ isInteger q = true.
Proof.
  destruct x as [| b | q | s | l | fs]; cbn [coerceScalar]; try discriminate.
  - intros Heq. injection Heq as <-. eexists. split; reflexivity.
  - intros Heq. injection Heq as <-. destruct b; eexists; split; reflexivity.
  - destruct (String.eqb s ""); [discriminate |].
    destruct (Number_of_string s) as [q |]; [| discriminate].
    destruct (isInteger q) eqn:Hq; [| discriminate].
    intros Heq. injection Heq as <-. eauto.
Qed.

Lemma coerceType_integer `{Collaborators} (x v : Json) :
  coerceType TyInteger x = Some v ->
  exists q, v = JNumber q /\ isInteger q = true.
Proof.
  unfold coerceType.
  destruct (hasType TyInteger x) eqn:Ht.
  - intros Heq. injection Heq as <-.
    destruct x; cbn in Ht; try discriminate Ht. eauto.
  - destruct x as [| b | q | s | [| y [| z l]] | fs];
      try apply coerceScalar_integer.
    destruct (hasType TyInteger y) eqn:Hy.
    + intros Heq. injection Heq as <-.
      destruct y; cbn in Hy; try discriminate Hy. eauto.
    + apply coerceScalar_integer.
Qed.

Lemma ajv_string `{Collaborators} (lo hi : option nat) (x x' : Json) :
  ajv (stringSchema lo hi) x = Some x' ->
  exists s, x' = JString s /\
            atLeast Nat.leb lo (String.length s) = true /\
            atMost Nat.leb hi (String.length s) = true.
Proof.
  unfold stringSchema. cbn [ajv].
  destruct (coerceType TyString x) as [v |] eqn:Hc; [| discriminate].
  destruct (coerceType_string x v Hc) as [s ->].
  destruct (atLeast Nat.leb lo (String.length s)
            && atMost Nat.leb hi (String.length s)) eqn:Hb; [| discriminate].
  intros Heq. injection Heq as <-.
  apply andb_true_iff in Hb. eauto.
Qed.

Lemma ajv_string_typed `{Collaborators} (lo hi : option nat) (s : string) :
  ajv (stringSchema lo hi) (JString s)
  = if atLeast Nat.leb lo (String.length s)
       && atMost Nat.leb hi (String.length s)
    then Some (JString s) else None.
Proof. reflexivity. Qed.

Lemma ajv_price `{Collaborators} (x x' : Json) :
  ajv (mkSchema TyInteger None None (Some 0%Q) (Some (JNumber 0%Q))
                [] [] true None) x = Some x' ->
  exists q, x' = JNumber q /\ isInteger q = true /\ (0 <= q)%Q.
Proof.
  cbn [ajv].
  destruct (coerceType TyInteger x) as [v |] eqn:Hc; [| discriminate].
  destruct (coerceType_integer x v Hc) as (q & -> & Hq).
  cbn [atLeast]. destruct (Qle_bool 0 q) eqn:Hmin; [| discriminate].
  intros Heq. injection Heq as <-.
  apply Qle_bool_iff in Hmin. eauto.
Qed.

Lemma ajv_price_typed `{Collaborators} (p : Q) :
  ajv (mkSchema TyInteger None None (Some 0%Q) (Some (JNumber 0%Q))
                [] [] true None) (JNumber p)
  = if isInteger p && Qle_bool 0 p then Some (JNumber p) else None.
Proof.
  cbn [ajv]. unfold coerceType. cbn [hasType].
  destruct (isInteger p); cbn; reflexivity.
Qed.

Lemma ajv_object_only `{Collaborators} (b b' : Json) :
  ajv postBodySchema b = Some b' -> exists fields, b = JObject fields.
Proof.
  unfold postBodySchema. cbn [ajv]. unfold coerceType.
  destruct b; cbn [hasType]; try discriminate. eauto.
Qed.

(** The run of the validator on an object of three declared properties
    that admits no others, step by step. *)
Lemma ajv_object_steps `{Collaborators} (k1 k2 k3 : string)
    (s1 s2 s3 : Schema) (required : list string)
    (lo hi : option nat) (minimum : option Q) (d : option Json)
    (items : option Schema) (fields : list (string * Json)) :
  let properties := [(k1, s1); (k2, s2); (k3, s3)] in
  ajv (mkSchema TyObject lo hi minimum d properties required false items)
      (JObject fields)
  = let filled := assignDefaults properties fields in
    if forallb (fun k => bool_decide (is_Some (assoc k filled))) required
    then
      match stepProperty k1 s1
              (List.filter
                 (fun kv => bool_decide (is_Some (assoc (fst kv) properties)))
                 filled) with
      | Some fs1 =>
          match stepProperty k2 s2 fs1 with
          | Some fs2 =>
              match stepProperty k3 s3 fs2 with
              | Some fs3 => Some (JObject fs3)
              | None => None
              end
          | None => None
          end
      | None => None
      end
    else None.
Proof.
  intros properties. unfold properties. clear properties.
  cbn [ajv]. unfold coerceType. cbn [hasType].
  unfold stepProperty. cbv zeta.
  destruct (forallb _ required); [| reflexivity].
  repeat match goal with
         | |- _ => reflexivity
         | |- context [match assoc ?k ?l with _ => _ end] =>
             destruct (assoc k l)
         | |- context [match ajv ?sch ?x with _ => _ end] =>
             destruct (ajv sch x)
         end.
Qed.

(** The run of the validator on a body of [POST /]. *)
Lemma ajv_post_object `{Collaborators} (fields : list (string * Json)) :
  ajv postBodySchema (JObject fields)
  = let filled :=
      match assoc "price" fields with
      | None => (fields ++ [("price", JNumber 0%Q)])%list
      | Some _ => fields
      end in
    if bool_decide (is_Some (assoc "name" filled))
       && bool_decide (is_Some (assoc "price" filled))
    then
      match stepProperty "name" (stringSchema (Some 3%nat) (Some 255%nat))
              (normalizedItem fields) with
      | Some fs1 =>
          match stepProperty "price"
                  (mkSchema TyInteger None None (Some 0%Q) (Some (JNumber 0%Q))
                            [] [] true None) fs1 with
          | Some fs2 =>
              match stepProperty "description"
                      (stringSchema None (Some 255%nat)) fs2 with
              | Some fs3 => Some (JObject fs3)
              | None => None
              end
          | None => None
          end
      | None => None
      end
    else None.
Proof.
  unfold postBodySchema. rewrite ajv_object_steps. cbv zeta.
  assert (Hfilled :
    assignDefaults
      [ ("name", stringSchema (Some 3%nat) (Some 255%nat));
        ("price", mkSchema TyInteger None None (Some 0%Q) (Some (JNumber 0%Q))
                           [] [] true None);
        ("description", stringSchema None (Some 255%nat)) ] fields
    = match assoc "price" fields with
      | None => (fields ++ [("price", JNumber 0%Q)])%list
      | Some _ => fields
      end).
  { cbn [assignDefaults schemaDefault stringSchema].
    destruct (assoc "name" fields); destruct (assoc "price" fields);
      try reflexivity;
      destruct (assoc "description" _); reflexivity. }
  rewrite Hfilled. cbn [forallb]. rewrite andb_true_r.
  unfold normalizedItem.
  erewrite (filter_ext _ (fun kv => bool_decide (In (fst kv) postBodyKeys)));
    [reflexivity |].
  intros [k v]. cbn [fst]. apply bool_decide_ext, declared_property.
Qed.

(** *** One property at a time *)

Lemma stepProperty_present `{Collaborators} (k : string) (sub : Schema)
    (fs fs' : list (string * Json)) (x : Json) :
  stepProperty k sub fs = Some fs' ->
  assoc k fs = Some x ->
  exists x', ajv sub x = Some x' /\ assoc k fs' = Some x' /\
             fs' = setField k x' fs.
Proof.
  unfold stepProperty. intros Hstep Hx. rewrite Hx in Hstep.
  destruct (ajv sub x) as [x' |]; [| discriminate Hstep].
  injection Hstep as <-. exists x'.
  rewrite assoc_setField_eq, Hx. auto.
Qed.

Lemma stepProperty_absent `{Collaborators} (k : string) (sub : Schema)
    (fs fs' : list (string * Json)) :
  stepProperty k sub fs = Some fs' -> assoc k fs = None -> fs' = fs.
Proof.
  unfold stepProperty. intros Hstep Hx. rewrite Hx in Hstep.
  injection Hstep as <-. reflexivity.
Qed.

Lemma stepProperty_other `{Collaborators} (k k' : string) (sub : Schema)
    (fs fs' : list (string * Json)) :
  stepProperty k sub fs = Some fs' -> k' <> k -> assoc k' fs' = assoc k' fs.
Proof.
  unfold stepProperty. intros Hstep Hne.
  destruct (assoc k fs) as [x |]; [| injection Hstep as <-; reflexivity].
  destruct (ajv sub x) as [x' |]; [| discriminate Hstep].
  injection Hstep as <-. apply assoc_setField_ne. exact Hne.
Qed.

Lemma stepProperty_keys `{Collaborators} (k k' : string) (sub : Schema)
    (fs fs' : list (string * Json)) (v : Json) :
  stepProperty k sub fs = Some fs' ->
  In (k', v) fs' -> exists v', In (k', v') fs.
Proof.
  unfold stepProperty. intros Hstep Hin.
  destruct (assoc k fs) as [x |]; [| injection Hstep as <-; eauto].
  destruct (ajv sub x) as [x' |]; [| discriminate Hstep].
  injection Hstep as <-. exact (in_setField_key _ _ _ _ _ Hin).
Qed.

(** A property whose value validation leaves as it is. *)
Lemma stepProperty_fixed `{Collaborators} (k : string) (sub : Schema)
    (fs fs' : list (string * Json)) :
  stepProperty k sub fs = Some fs' ->
  (forall x x', assoc k fs = Some x -> ajv sub x = Some x' -> x' = x) ->
  fs' = fs.
Proof.
  intros Hstep Hsame.
  destruct (assoc k fs) as [x |] eqn:Hx.
  - destruct (stepProperty_present _ _ _ _ _ Hstep Hx) as (x' & Hv & _ & ->).
    rewrite (Hsame x x' eq_refl Hv). apply setField_same. exact Hx.
  - exact (stepProperty_absent _ _ _ _ Hstep Hx).
Qed.

Lemma stepProperty_accepts `{Collaborators} (k : string) (sub : Schema)
    (fs : list (string * Json)) (x : Json) :
  assoc k fs = Some x -> ajv sub x = Some x ->
  stepProperty k sub fs = Some fs.
Proof.
  intros Hx Hv. unfold stepProperty. rewrite Hx, Hv.
  rewrite (setField_same _ _ _ Hx). reflexivity.
Qed.

(** *** The body as validation leaves it *)

Lemma filled_lookup (k : string) (fields : list (string * Json)) :
  assoc k (match assoc "price" fields with
           | None => (fields ++ [("price", JNumber 0%Q)])%list
           | Some _ => fields
           end)
  = match assoc k fields with
    | Some x => Some x
    | None => if String.eqb "price" k then Some (JNumber 0%Q) else None
    end.
Proof.
  destruct (assoc "price" fields) as [px |] eqn:Hprice.
  - destruct (assoc k fields) eqn:Hk; [reflexivity |].
    destruct (String.eqb_spec "price" k) as [<- | _]; [congruence | reflexivity].
  - rewrite assoc_app. cbn [assoc]. destruct (assoc k fields); reflexivity.
Qed.

Lemma normalized_lookup (k : string) (fields : list (string * Json)) :
  In k postBodyKeys ->
  assoc k (normalizedItem fields)
  = match assoc k fields with
    | Some x => Some x
    | None => if String.eqb "price" k then Some (JNumber 0%Q) else None
    end.
Proof.
  intros Hk. unfold normalizedItem.
  etransitivity;
    [exact (assoc_filter (fun k => bool_decide (In k postBodyKeys)) k _) |].
  cbv beta. rewrite bool_decide_eq_true_2 by exact Hk.
  apply filled_lookup.
Qed.

Lemma normalized_name (fields : list (string * Json)) :
  assoc "name" (normalizedItem fields) = assoc "name" fields.
Proof.
  rewrite normalized_lookup by (cbn; auto).
  destruct (assoc "name" fields); reflexivity.
Qed.

Lemma normalized_price (fields : list (string * Json)) :
  assoc "price" (normalizedItem fields)
  = match assoc "price" fields with
    | Some x => Some x
    | None => Some (JNumber 0%Q)
    end.
Proof. rewrite normalized_lookup by (cbn; auto). reflexivity. Qed.

Lemma normalized_description (fields : list (string * Json)) :
  assoc "description" (normalizedItem fields) = assoc "description" fields.
Proof.
  rewrite normalized_lookup by (cbn; auto).
  destruct (assoc "description" fields); reflexivity.
Qed.

Lemma normalized_keys (k : string) (x : Json) (fields : list (string * Json)) :
  In (k, x) (normalizedItem fields) -> In k postBodyKeys.
Proof.
  unfold normalizedItem. intros Hin.
  apply filter_In in Hin as [_ Hk]. cbn [fst] in Hk.
  apply bool_decide_eq_true in Hk. exact Hk.
Qed.

(** Whatever the validator accepts, it leaves as an object that meets the
    schema to the letter. *)
Lemma ajv_post_sound `{Collaborators} (b b' : Json) :
  ajv postBodySchema b = Some b' ->
  exists fields', b' = JObject fields' /\ wellFormedItem fields'.
Proof.
  intros Hv. destruct (ajv_object_only _ _ Hv) as [fields ->].
  rewrite ajv_post_object in Hv. cbv zeta in Hv.
  rewrite !filled_lookup in Hv.
  destruct (bool_decide _ && bool_decide _) eqn:Hreq; [| discriminate Hv].
  apply andb_true_iff in Hreq as [Hname _].
  apply bool_decide_eq_true in Hname.
  destruct (stepProperty "name" _ _) as [fs1 |] eqn:H1; [| discriminate Hv].
  destruct (stepProperty "price" _ _) as [fs2 |] eqn:H2; [| discriminate Hv].
  destruct (stepProperty "description" _ _) as [fs3 |] eqn:H3;
    [| discriminate Hv].
  injection Hv as <-. exists fs3. split; [reflexivity |].
  assert (Hn1 : exists n, assoc "name" fs1 = Some (JString n) /\
                          (3 <= String.length n <= 255)%nat).
  { destruct (assoc "name" fields) as [xn |] eqn:Hn.
    - assert (Hin : assoc "name" (normalizedItem fields) = Some xn)
        by (rewrite normalized_name; exact Hn).
      destruct (stepProperty_present _ _ _ _ _ H1 Hin) as (x' & Hx' & Hat & _).
      apply ajv_string in Hx' as (n & -> & Hlo & Hhi).
      cbn [atLeast atMost] in Hlo, Hhi. apply Nat.leb_le in Hlo, Hhi.
      exists n. auto.
    - destruct Hname as [x Hx]. discriminate Hx. }
  assert (Hp2 : exists p, assoc "price" fs2 = Some (JNumber p) /\
                          isInteger p = true /\ (0 <= p)%Q).
  { assert (Hin : exists xp, assoc "price" fs1 = Some xp).
    { rewrite (stepProperty_other _ _ _ _ _ H1) by discriminate.
      rewrite normalized_price. destruct (assoc "price" fields); eauto. }
    destruct Hin as [xp Hin].
    destruct (stepProperty_present _ _ _ _ _ H2 Hin) as (x' & Hx' & Hat & _).
    apply ajv_price in Hx' as (q & -> & Hq & Hmin). exists q. auto. }
  destruct Hn1 as (n & Hn1 & Hlen). destruct Hp2 as (p & Hp2 & Hint & Hmin).
  repeat split.
  - exists n. split; [| exact Hlen].
    rewrite (stepProperty_other _ _ _ _ _ H3) by discriminate.
    rewrite (stepProperty_other _ _ _ _ _ H2) by discriminate.
    exact Hn1.
  - exists p. split; [| split; assumption].
    rewrite (stepProperty_other _ _ _ _ _ H3) by discriminate.
    exact Hp2.
  - destruct (assoc "description" fs2) as [xd |] eqn:Hd.
    + right.
      destruct (stepProperty_present _ _ _ _ _ H3 Hd) as (x' & Hx' & Hat & _).
      apply ajv_string in Hx' as (d & -> & _ & Hhi).
      cbn [atMost] in Hhi. apply Nat.leb_le in Hhi. exists d. auto.
    + left. rewrite (stepProperty_absent _ _ _ _ H3 Hd). exact Hd.
  - intros k x Hin.
    destruct (stepProperty_keys _ _ _ _ _ _ H3 Hin) as [v2 Hin2].
    destruct (stepProperty_keys _ _ _ _ _ _ H2 Hin2) as [v1 Hin1].
    destruct (stepProperty_keys _ _ _ _ _ _ H1 Hin1) as [v0 Hin0].
    exact (normalized_keys _ _ _ Hin0).
Qed.

(** A body that needs no coercion and meets the bounds is accepted, and
    left with a price and with the declared keys only. *)
Lemma ajv_post_accepts `{Collaborators} (fields : list (string * Json)) :
  acceptableItem fields ->
  ajv postBodySchema (JObject fields)
  = Some (JObject (normalizedItem fields)).
Proof.
  intros ((n & Hn & Hlo & Hhi) & Hp & Hd).
  rewrite ajv_post_object. cbv zeta. rewrite !filled_lookup, Hn.
  assert (Hreq : forall o : option Json,
    bool_decide (is_Some (Some (JString n)))
    && bool_decide (is_Some match o with
                            | Some x => Some x
                            | None => Some (JNumber 0%Q)
                            end) = true).
  { intros o. apply andb_true_iff.
    split; apply bool_decide_eq_true_2; [| destruct o]; eauto. }
  change (String.eqb "price" "price") with true. cbv iota.
  rewrite Hreq.
  rewrite (stepProperty_accepts "name" _ _ (JString n)); cycle 1.
  { rewrite normalized_name. exact Hn. }
  { rewrite ajv_string_typed. cbn [atLeast atMost].
    apply Nat.leb_le in Hlo, Hhi. rewrite Hlo, Hhi. reflexivity. }
  assert (Hprice : exists p,
    assoc "price" (normalizedItem fields) = Some (JNumber p) /\
    isInteger p = true /\ (0 <= p)%Q).
  { rewrite normalized_price.
    destruct Hp as [-> | (p & -> & Hint & Hmin)]; [| eauto].
    exists 0%Q. split; [reflexivity |]. split; [reflexivity | apply Qle_refl]. }
  destruct Hprice as (p & Hprice & Hint & Hmin).
  rewrite (stepProperty_accepts "price" _ _ (JNumber p)); cycle 1.
  { exact Hprice. }
  { rewrite ajv_price_typed, Hint. apply Qle_bool_iff in Hmin.
    rewrite Hmin. reflexivity. }
  destruct Hd as [Hd | (d & Hd & Hlen)].
  - unfold stepProperty. rewrite normalized_description, Hd. reflexivity.
  - rewrite (stepProperty_accepts "description" _ _ (JString d));
      [reflexivity | |].
    + rewrite normalized_description. exact Hd.
    + rewrite ajv_string_typed. cbn [atLeast atMost].
      apply Nat.leb_le in Hlen. rewrite Hlen. reflexivity.
Qed.

Lemma ajv_string_same `{Collaborators} (lo hi : option nat) (s : string)
    (x' : Json) :
  ajv (stringSchema lo hi) (JString s) = Some x' -> x' = JString s.
Proof.
  rewrite ajv_string_typed. destruct (_ && _); congruence.
Qed.

Lemma ajv_price_same `{Collaborators} (p : Q) (x' : Json) :
  ajv (mkSchema TyInteger None None (Some 0%Q) (Some (JNumber 0%Q))
                [] [] true None) (JNumber p) = Some x' ->
  x' = JNumber p.
Proof.
  rewrite ajv_price_typed. destruct (_ && _); congruence.
Qed.

(** Where nothing is coerced, acceptance changes no declared value. *)
Lemma ajv_post_typed `{Collaborators} (fields : list (string * Json))
    (b' : Json) :
  typedItem fields ->
  ajv postBodySchema (JObject fields) = Some b' ->
  b' = JObject (normalizedItem fields) /\ acceptableItem fields.
Proof.
  intros (Tn & Tp & Td) Hv.
  assert (Hsame : b' = JObject (normalizedItem fields)).
  { rewrite ajv_post_object in Hv. cbv zeta in Hv.
    destruct (bool_decide _ && bool_decide _); [| discriminate Hv].
    destruct (stepProperty "name" _ _) as [fs1 |] eqn:H1; [| discriminate Hv].
    apply stepProperty_fixed in H1 as ->; cycle 1.
    { intros x x' Hx Hx'. rewrite normalized_name in Hx.
      destruct (Tn x Hx) as [n ->]. exact (ajv_string_same _ _ _ _ Hx'). }
    destruct (stepProperty "price" _ _) as [fs2 |] eqn:H2; [| discriminate Hv].
    apply stepProperty_fixed in H2 as ->; cycle 1.
    { intros x x' Hx Hx'. rewrite normalized_price in Hx.
      destruct (assoc "price" fields) as [xp |] eqn:Hp.
      - destruct (Tp xp eq_refl) as [p ->]. injection Hx as <-.
        exact (ajv_price_same _ _ Hx').
      - injection Hx as <-. exact (ajv_price_same _ _ Hx'). }
    destruct (stepProperty "description" _ _) as [fs3 |] eqn:H3;
      [| discriminate Hv].
    apply stepProperty_fixed in H3 as ->; cycle 1.
    { intros x x' Hx Hx'. rewrite normalized_description in Hx.
      destruct (Td x Hx) as [d ->]. exact (ajv_string_same _ _ _ _ Hx'). }
    injection Hv as <-. reflexivity. }
  split; [exact Hsame |]. subst b'.
  destruct (ajv_post_sound _ _ Hv) as (fs & Heq & Hn & Hp & Hd & _).
  injection Heq as <-.
  rewrite normalized_name in Hn. rewrite normalized_price in Hp.
  rewrite normalized_description in Hd.
  split; [exact Hn |]. split; [| exact Hd].
  destruct (assoc "price" fields) as [xp |]; [right; exact Hp | left; reflexivity].
Qed.

(** *** The route *)

Lemma validate_post_route `{Collaborators} (handler : Async unit) (r : Request) :
  validateRequest (mkRoute None (Some postBodySchema) handler) r
  = match body r with
    | Some b =>
        match ajv postBodySchema b with
        | Some b' => Some (setBody (Some b') r)
        | None => None
        end
    | None => None
    end.
Proof. reflexivity. Qed.

(** C5 (as amended).  [POST /] is registered with the body schema, and
    the validator of the instance fills in defaults, coerces types and
    removes undeclared keys before it judges.  For every request:

    - if validation accepts it, the body the handler receives is an
      object with a string [name] of 3 to 255 characters, an integer
      [price] of at least 0, a [description] that is absent or a string of
      at most 255 characters, and no other key, and the handler runs on
      that body;
    - if validation refuses it, the response is the validation error with
      status 400 and the handler does not run: no controller is called
      and the items are untouched;
    - a body that is no object is refused;
    - an object whose [name], [price] and [description], where present,
      are a string, a number and a string is accepted exactly when the
      name has 3 to 255 characters, the price is missing or an integer of
      at least 0, and the description is missing or has at most 255
      characters.  Its other keys do not matter: the handler receives the
      declared keys only, with price 0 if the price was missing. *)
Theorem post_body_schema `{Collaborators} (gate : Async unit) (s : St) :
  let route := mkRoute None (Some postBodySchema) (post_item gate) in
  In route (itemRoutes gate) /\
  (forall r,
     validateRequest route (request s) = Some r ->
     exists fields,
       body r = Some (JObject fields) /\
       wellFormedItem fields /\
       runRoute route s = guarded (post_item gate) (setRequest r s)) /\
  (validateRequest route (request s) = None ->
   let s' := snd (runRoute route s) in
   fst (runRoute route s) = Returned tt /\
   sent (reply s') = true /\
   status (reply s') = 400 /\
   payload (reply s') = Some (PError validationError) /\
   calls s' = calls s /\
   items s' = items s) /\
  ((forall fields, body (request s) <> Some (JObject fields)) ->
   validateRequest route (request s) = None) /\
  (forall fields,
     body (request s) = Some (JObject fields) ->
     typedItem fields ->
     (is_Some (validateRequest route (request s)) <-> acceptableItem fields) /\
     (acceptableItem fields ->
      validateRequest route (request s)
      = Some (setBody (Some (JObject (normalizedItem fields))) (request s)))).
Proof.
  intros route. subst route.
  split; [unfold itemRoutes; cbn [In]; auto |].
  split; [| split; [| split]].
  - intros r Hr. rewrite (runRoute_accepted _ s r Hr). cbn [routeHandler].
    rewrite validate_post_route in Hr.
    destruct (body (request s)) as [b |]; [| discriminate Hr].
    destruct (ajv postBodySchema b) as [b' |] eqn:Hv; [| discriminate Hr].
    injection Hr as <-.
    destruct (ajv_post_sound b b' Hv) as (fields & -> & Hw).
    exists fields. auto.
  - intros Hnone. rewrite (runRoute_refused _ s Hnone), handleError_run.
    cbn. repeat split.
  - intros Hshape. rewrite validate_post_route.
    destruct (body (request s)) as [b |]; [| reflexivity].
    destruct (ajv postBodySchema b) as [b' |] eqn:Hv; [| reflexivity].
    destruct (ajv_object_only b b' Hv) as [fields ->].
    destruct (Hshape fields eq_refl).
  - intros fields Hb Ht. rewrite validate_post_route, Hb.
    split; [split |].
    + intros [r Hr].
      destruct (ajv postBodySchema (JObject fields)) as [b' |] eqn:Hv;
        [| discriminate Hr].
      exact (proj2 (ajv_post_typed fields b' Ht Hv)).
    + intros Ha. rewrite (ajv_post_accepts fields Ha). eauto.
    + intros Ha. rewrite (ajv_post_accepts fields Ha). reflexivity.
Qed.

(** ** Creating an item and reading it back *)

Lemma read_body_prop `{Collaborators} (key : string) (s : St)
    (fields : list (string * Json)) :
  body (request s) = Some (JObject fields) ->
  body_prop key s = (Returned (assoc key fields), s).
Proof.
  intros Hb. unfold body_prop. rewrite run_bind. cbn. rewrite Hb.
  reflexivity.
Qed.

(** C4.  Let the gate pass with the caller's user record in
    [request.user], and let the body be a valid one with name [n], price
    [p] and no description.  [POST /] then creates the row and answers with
    the item it fetches back by the new ID: the calls are a [create]
    followed by a [get] of that ID, and the payload is the stored row, with
    its ID and restaurant, not the request body.  A [GET /:id] for that ID
    by a caller of the same restaurant, on the items as [POST /] left them,
    answers with an item of name [n], price [p] and no description. *)
Theorem create_then_get `{Collaborators} (gate : Async unit)
    (s s1 : St) (u : User) (r : Restaurant)
    (fields : list (string * Json)) (n : string) (p : Q) :
  gate s = (Returned tt, s1) ->
  user (request s1) = UserRecord u ->
  restaurant u = Some r ->
  body (request s1) = Some (JObject fields) ->
  validate postBodySchema (JObject fields) = true ->
  assoc "name" fields = Some (JString n) ->
  assoc "price" fields = Some (JNumber p) ->
  assoc "description" fields = None ->
  let f := mkFields (Some (JString n)) (Some (JNumber p)) None (r_id r) in
  let id := newPublicId (items s1) f in
  let row := mkItem id (Some (JString n)) (Some (JNumber p)) None (r_id r) in
  let s2 := snd (post_item gate s) in
  fst (post_item gate s) = Returned tt /\
  payload (reply s2) = Some (PItem row) /\
  items s2 !! id = Some row /\
  calls s2 = ItemGet id :: ItemCreate f :: calls s1 /\
  forall (t t1 : St) (u' : User) (r' : Restaurant),
    gate t = (Returned tt, t1) ->
    items t1 = items s2 ->
    params_id (request t1) = id ->
    user (request t1) = UserRecord u' ->
    restaurant u' = Some r' ->
    r_id r' = r_id r ->
    fst (get_item gate t) = Returned tt /\
    exists it,
      payload (reply (snd (get_item gate t))) = Some (PItem it) /\
      i_id it = id /\
      i_name it = Some (JString n) /\
      i_price it = Some (JNumber p) /\
      i_description it = None.
Proof.
  intros Hg Hu Hr Hb _ Hn Hp Hd f id row s2.
  assert (Hpost : post_item gate s
    = (Returned tt,
       setReply (mkReply true (status (reply s1)) (contentType (reply s1))
                         (Some (PItem row)))
         (logCall (ItemGet id)
            (logCall (ItemCreate f) (setItems (<[id := row]> (items s1)) s1))))).
  { unfold post_item. rewrite (run_bind_returned _ _ _ _ _ Hg).
    rewrite (run_bind_returned _ _ _ _ _ (read_body_prop "name" s1 fields Hb)).
    rewrite (run_bind_returned _ _ _ _ _ (read_body_prop "price" s1 fields Hb)).
    rewrite (run_bind_returned _ _ _ _ _
               (read_body_prop "description" s1 fields Hb)).
    rewrite (run_bind_returned _ _ _ _ _ (read_restaurant_id s1 u r Hu Hr)).
    rewrite Hn, Hp, Hd. fold f.
    rewrite run_bind. unfold itemControl_create. fold id. fold row.
    rewrite run_bind. unfold itemControl_get. cbn.
    rewrite lookup_insert_eq. reflexivity. }
  subst s2. rewrite Hpost. cbn [fst snd].
  split; [reflexivity |]. split; [reflexivity |].
  split; [cbn; apply lookup_insert_eq |]. split; [reflexivity |].
  intros t t1 u' r' Hgt Hit Hid Hu' Hr' Hsame.
  cbn [snd] in Hit.
  assert (Hrow : items t1 !! params_id (request t1) = Some row).
  { rewrite Hit, Hid. cbn. apply lookup_insert_eq. }
  assert (Hget : get_item gate t
    = (Returned tt,
       setReply (mkReply true (status (reply t1)) (contentType (reply t1))
                         (Some (PItem row)))
                (logCall (ItemGet (params_id (request t1))) t1))).
  { unfold get_item. rewrite (run_bind_returned _ _ _ _ _ Hgt).
    rewrite run_bind. cbn.
    unfold itemControl_get. rewrite run_bind. rewrite Hrow.
    rewrite (run_bind_returned _ _ _ _ _
               (read_restaurant_id
                  (logCall (ItemGet (params_id (request t1))) t1)
                  u' r' Hu' Hr')).
    rewrite bool_decide_eq_false_2; [reflexivity |].
    intros Hne. apply Hne. cbn. symmetry. exact Hsame. }
  rewrite Hget. split; [reflexivity |].
  exists row. repeat split.
Qed.


(** * Further properties of the code *)

(** ** What the base gate leaves alone *)

(** X1.  [authenticate] never calls a controller and never changes the
    users or the items.  When the token verifies it leaves the reply as it
    was; when verification fails it leaves the request, and so
    [request.user], as it was. *)
Theorem authenticate_frame `{Collaborators} (s : St) :
  users (snd (authenticate s)) = users s /\
  items (snd (authenticate s)) = items s /\
  calls (snd (authenticate s)) = calls s /\
  (forall p, jwtDecode (token (request s)) = inr p ->
     reply (snd (authenticate s)) = reply s /\
     token (request (snd (authenticate s))) = token (request s) /\
     params_id (request (snd (authenticate s))) = params_id (request s) /\
     body (request (snd (authenticate s))) = body (request s)) /\
  (forall err, jwtDecode (token (request s)) = inl err ->
     request (snd (authenticate s)) = request s).
Proof.
  destruct (jwtDecode (token (request s))) as [err | p] eqn:Hv.
  - rewrite (authenticate_rejected s err Hv). cbn.
    repeat split; intros; discriminate.
  - rewrite (authenticate_verified s p Hv). cbn.
    repeat split; intros; discriminate.
Qed.

(** X2.  On a request whose reply has not left yet, [authenticate] sends a
    reply exactly when verification fails; after a successful
    verification status, content type and payload are as before. *)
Theorem authenticate_replies_iff_rejected `{Collaborators} (s : St) :
  sent (reply s) = false ->
  (sent (reply (snd (authenticate s))) = true <->
   exists err, jwtDecode (token (request s)) = inl err) /\
  (sent (reply (snd (authenticate s))) = false <->
   exists p, jwtDecode (token (request s)) = inr p).
Proof.
  intros Hs.
  destruct (jwtDecode (token (request s))) as [err | p] eqn:Hv.
  - rewrite (authenticate_rejected s err Hv). cbn. split; split.
    + intros _. exists err. reflexivity.
    + reflexivity.
    + intros Hf. discriminate Hf.
    + intros [p Hp]. discriminate Hp.
  - rewrite (authenticate_verified s p Hv). cbn. rewrite Hs. split; split.
    + intros Hf. discriminate Hf.
    + intros [err Herr]. discriminate Herr.
    + intros _. exists p. reflexivity.
    + reflexivity.
Qed.

(** ** The document routes *)

Lemma sendYaml_dev `{Collaborators} (s : St) :
  PROD = false ->
  sendYaml s
  = (Returned tt,
     setReply (mkReply true (status (reply s)) (Some "text/yaml")
                       (Some (PDocument (Some swagger_yaml)))) s).
Proof.
  intros Hp. unfold sendYaml, openAPIYaml. rewrite Hp. reflexivity.
Qed.

Lemma sendJson_dev `{Collaborators} (s : St) :
  PROD = false ->
  sendJson s
  = (Returned tt,
     setReply (mkReply true (status (reply s)) (Some "application/json")
                       (Some (PDocument (Some swagger_json)))) s).
Proof.
  intros Hp. unfold sendJson, openAPIJson. rewrite Hp. reflexivity.
Qed.

Lemma send_prod `{Collaborators} (s : St) :
  PROD = true ->
  sendJson s
  = (Returned tt,
     setReply (mkReply true (status (reply s)) (contentType (reply s))
                       (Some (PFile "/public/openapi.json"))) s) /\
  sendYaml s
  = (Returned tt,
     setReply (mkReply true (status (reply s)) (contentType (reply s))
                       (Some (PFile "/public/openapi.yaml"))) s).
Proof.
  intros Hp. unfold sendJson, sendYaml. rewrite Hp. split; reflexivity.
Qed.

(** X3.  Whenever the negotiated type is not [application/json], [GET
    /openapi] does what [GET /openapi/yaml] does.  That is so for each of
    the three YAML types, and also when negotiation returns an empty
    array, which the default does not replace.  In development the content
    type of the answer is then [text/yaml], whichever YAML type was
    asked for. *)
Theorem openapi_yaml_agrees `{Collaborators} (s : St) :
  (negotiatedType (accept (request s)) <> Some "application/json" ->
   openapi s = openapi_yaml s) /\
  (forall t, request_type (accept (request s)) supportedTypes = TypeString t ->
     In t ["application/yaml"; "text/yaml"; "text/yml"] ->
     openapi s = openapi_yaml s /\
     (PROD = false ->
      contentType (reply (snd (openapi s))) = Some "text/yaml" /\
      payload (reply (snd (openapi s))) = Some (PDocument (Some swagger_yaml)))) /\
  (request_type (accept (request s)) supportedTypes = TypeArray [] ->
   openapi s = openapi_yaml s).
Proof.
  assert (Hne : negotiatedType (accept (request s)) <> Some "application/json" ->
                openapi s = openapi_yaml s).
  { intros Hn. rewrite openapi_by_type.
    rewrite bool_decide_eq_false_2 by exact Hn. reflexivity. }
  split; [exact Hne |]. split.
  - intros t Ht Hin.
    assert (Hy : openapi s = openapi_yaml s).
    { apply Hne. unfold negotiatedType, validType. rewrite Ht.
      cbn [In] in Hin.
      destruct Hin as [<- | [<- | [<- | []]]]; cbn; intros Hj; discriminate Hj. }
    split; [exact Hy |].
    intros Hp. rewrite Hy. unfold openapi_yaml.
    rewrite (sendYaml_dev s Hp). cbn. split; reflexivity.
  - intros Ha. apply Hne. unfold negotiatedType, validType. rewrite Ha.
    cbn. intros Hj. discriminate Hj.
Qed.

(** X4.  In development [GET /openapi] always sends a document that is
    defined, with the status left as it was and a content type that is
    one of the route's declared [produces]: [application/json] with the
    JSON document or [text/yaml] with the YAML document, whatever the
    [Accept] header and whatever the negotiation returns. *)
Theorem openapi_dev_answer `{Collaborators} (s : St) :
  PROD = false ->
  let r := reply (snd (openapi s)) in
  fst (openapi s) = Returned tt /\
  sent r = true /\
  status r = status (reply s) /\
  ((contentType r = Some "application/json" /\
    payload r = Some (PDocument (Some swagger_json))) \/
   (contentType r = Some "text/yaml" /\
    payload r = Some (PDocument (Some swagger_yaml)))) /\
  exists t declared,
    contentType r = Some t /\
    produces openapiSchema = Some declared /\
    In t declared.
Proof.
  intros Hp. rewrite openapi_by_type.
  destruct (bool_decide _).
  - rewrite (sendJson_dev s Hp). cbn. repeat split.
    + left. split; reflexivity.
    + exists "application/json", ["application/json"; "text/yaml"].
      repeat split. cbn. tauto.
  - rewrite (sendYaml_dev s Hp). cbn. repeat split.
    + right. split; reflexivity.
    + exists "text/yaml", ["application/json"; "text/yaml"].
      repeat split. cbn. tauto.
Qed.

(** X5.  No registered document route throws, and none ever sends an
    undefined document: in production every one of them sends a file, so
    the module-level variables that are only assigned in development are
    not read, and in development every one sends a defined string. *)
Theorem docRoutes_send_defined `{Collaborators}
    (path : string) (sch : RouteSchema RouteInfo) (handler : Async unit)
    (s : St) :
  In (path, sch, handler) docRoutes ->
  fst (handler s) = Returned tt /\
  sent (reply (snd (handler s))) = true /\
  (PROD = true ->
   exists file, payload (reply (snd (handler s))) = Some (PFile file)) /\
  (PROD = false ->
   exists doc, payload (reply (snd (handler s))) = Some (PDocument (Some doc))).
Proof.
  unfold docRoutes, DEV. intros Hin.
  destruct PROD eqn:Hp; cbn [negb app In] in Hin.
  - destruct (send_prod s Hp) as [Hj Hy].
    assert (Hcase : handler s = sendJson s \/ handler s = sendYaml s).
    { destruct Hin as [Hin | [Hin | [Hin | []]]]; inversion Hin; subst.
      - rewrite openapi_by_type. destruct (bool_decide _); auto.
      - left. reflexivity.
      - right. reflexivity. }
    destruct Hcase as [-> | ->]; [rewrite Hj | rewrite Hy]; cbn;
      repeat split; try (intros Hf; discriminate Hf); intros _; eauto.
  - pose proof (sendJson_dev s Hp) as Hj. pose proof (sendYaml_dev s Hp) as Hy.
    assert (Hcase : handler s = sendJson s \/ handler s = sendYaml s).
    { destruct Hin as [Hin | [Hin | [Hin | [Hin | [Hin | []]]]]];
        inversion Hin; subst.
      - rewrite openapi_by_type. destruct (bool_decide _); auto.
      - left. reflexivity.
      - right. reflexivity.
      - left. unfold sendJson. rewrite Hp. reflexivity.
      - right. unfold sendYaml. rewrite Hp. reflexivity. }
    destruct Hcase as [-> | ->]; [rewrite Hj | rewrite Hy]; cbn;
      repeat split; try (intros Hf; discriminate Hf); intros _; eauto.
Qed.

(** X6.  The aliases [/openapi.json] and [/openapi.yaml] are registered
    only outside production, and there they do exactly what
    [/openapi/json] and [/openapi/yaml] do. *)
Theorem docRoutes_aliases `{Collaborators}
    (path : string) (sch : RouteSchema RouteInfo) (handler : Async unit) :
  In (path, sch, handler) docRoutes ->
  (path = "/openapi.json" ->
   PROD = false /\ forall s, handler s = openapi_json s) /\
  (path = "/openapi.yaml" ->
   PROD = false /\ forall s, handler s = openapi_yaml s).
Proof.
  unfold docRoutes, DEV. intros Hin.
  destruct PROD eqn:Hp; cbn [negb app In] in Hin.
  - destruct Hin as [Hin | [Hin | [Hin | []]]]; inversion Hin; subst;
      split; intros Hpath; discriminate Hpath.
  - destruct Hin as [Hin | [Hin | [Hin | [Hin | [Hin | []]]]]];
      inversion Hin; subst;
      split; intros Hpath; try discriminate Hpath;
      (split; [reflexivity |]); intros s;
      unfold openapi_json, openapi_yaml, sendJson, sendYaml;
      rewrite Hp; reflexivity.
Qed.

(** ** The swagger transform *)

(** X7.  [transform] applied twice is [transform] applied once, and it
    never changes the URL. *)
Theorem transform_idempotent {R} (arg : option (RouteSchema R) * string) :
  transform (transform arg) = transform arg /\
  snd (transform arg) = snd arg.
Proof.
  destruct arg as [[[c p o] |] url]; cbn; [| split; reflexivity].
  destruct c, p; split; reflexivity.
Qed.

(** X8.  [transform] leaves a schema as it is exactly when the schema
    declares both [consumes] and [produces]; a declared list is never
    replaced, not even an empty one, and a missing schema stays
    missing. *)
Theorem transform_fixed_points {R} (sc : RouteSchema R) (url : string) :
  (transform (Some sc, url) = (Some sc, url) <->
   is_Some (consumes sc) /\ is_Some (produces sc)) /\
  (forall sc', fst (transform (Some sc, url)) = Some sc' ->
     others sc' = others sc /\
     (forall l, consumes sc = Some l -> consumes sc' = Some l) /\
     (forall l, produces sc = Some l -> produces sc' = Some l) /\
     is_Some (consumes sc') /\ is_Some (produces sc')) /\
  transform (@None (RouteSchema R), url) = (None, url).
Proof.
  destruct sc as [c p o]. cbn. split; [| split; [| reflexivity]].
  - split.
    + intros Heq. destruct c; [| discriminate Heq].
      destruct p; [eauto | discriminate Heq].
    + intros [[lc ->] [lp ->]]. reflexivity.
  - intros sc' Hsc. injection Hsc as <-. cbn. repeat split.
    + intros l ->. reflexivity.
    + intros l ->. reflexivity.
    + destruct c; cbn; eauto.
    + destruct p; cbn; eauto.
Qed.

(** X9.  A route that declares no [consumes] is documented as accepting
    every content type the YAML body parser is registered for, and
    [application/json]. *)
Theorem transform_advertises_yaml {R} (sc : RouteSchema R) (url ct : string) :
  consumes sc = None ->
  ct ∈ yamlContentTypes \/ ct = "application/json" ->
  exists sc' l,
    fst (transform (Some sc, url)) = Some sc' /\
    consumes sc' = Some l /\
    In ct l.
Proof.
  intros Hc Hct. destruct sc as [c p o]. cbn in Hc. subst c.
  eexists _, defaultConsumes. cbn. repeat split.
  unfold defaultConsumes. destruct Hct as [Hy | ->]; [| cbn; tauto].
  unfold yamlContentTypes in Hy.
  repeat (apply elem_of_cons in Hy as [-> | Hy]; [cbn; tauto |]).
  inversion Hy.
Qed.

(** ** The item handlers, whatever the gate *)

(** X10.  [GET /], [GET /:id], [GET /best-seller] and [GET /worst-seller]
    are read-only: on every path through the handler, also when the gate
    or a controller throws, the handler itself calls neither
    [itemControl.create] nor [itemControl.del], and the items and the users
    are what the gate left them. *)
Theorem read_routes_change_nothing `{Collaborators} (gate : Async unit)
    (handler : Async unit) (s : St) :
  In handler [ get_menu gate; get_item gate;
               get_best_seller gate; get_worst_seller gate ] ->
  items (snd (handler s)) = items (snd (gate s)) /\
  users (snd (handler s)) = users (snd (gate s)) /\
  exists new,
    calls (snd (handler s)) = (new ++ calls (snd (gate s)))%list /\
    Forall (fun c => isWrite c = false) new.
Proof.
  cbn [In]. intros [<- | [<- | [<- | [<- | []]]]]; run_handler;
    destruct (gate s) as [[[] | e] s1]; cbn;
    repeat (case_match; simplify_eq; cbn);
    (split; [reflexivity |]); (split; [reflexivity |]); log_prefix;
    repeat constructor.
Qed.

(** X11.  [DELETE /:id] can only ever remove the item named by [:id]:
    the controller calls it makes are a [get] and possibly a [del], both
    for that ID, and every other item is afterwards what it was when the
    gate returned, on every path through the handler. *)
Theorem delete_touches_only_named `{Collaborators} (gate : Async unit)
    (s : St) (other : string) :
  other <> params_id (request (snd (gate s))) ->
  items (snd (delete_item gate s)) !! other = items (snd (gate s)) !! other /\
  users (snd (delete_item gate s)) = users (snd (gate s)) /\
  exists new,
    calls (snd (delete_item gate s)) = (new ++ calls (snd (gate s)))%list /\
    Forall (fun c => c = ItemGet (params_id (request (snd (gate s)))) \/
                     c = ItemDel (params_id (request (snd (gate s))))) new.
Proof.
  intros Hne. run_handler.
  destruct (gate s) as [[[] | e] s1]; cbn in *;
    repeat (case_match; simplify_eq; cbn);
    (split; [first [reflexivity | apply lookup_delete_ne; congruence] |]);
    (split; [reflexivity |]); log_prefix;
    repeat first [apply List.Forall_nil | apply List.Forall_cons]; auto.
Qed.

(** ** Items that are missing *)

Lemma handler_on_missing_item `{Collaborators} (gate : Async unit) (s s1 : St) :
  gate s = (Returned tt, s1) ->
  items s1 !! params_id (request s1) = None ->
  get_item gate s
  = (Thrown notFound, logCall (ItemGet (params_id (request s1))) s1) /\
  delete_item gate s
  = (Thrown notFound, logCall (ItemGet (params_id (request s1))) s1).
Proof.
  intros Hg Hnone. run_handler. rewrite Hg. cbn. rewrite Hnone.
  split; reflexivity.
Qed.

Lemma delete_own_item_run `{Collaborators} (gate : Async unit) (s s1 : St)
    (u : User) (r : Restaurant) (it : Item) :
  gate s = (Returned tt, s1) ->
  user (request s1) = UserRecord u ->
  restaurant u = Some r ->
  items s1 !! params_id (request s1) = Some it ->
  restaurantId it = r_id r ->
  items (snd (delete_item gate s))
  = delete (params_id (request s1)) (items s1).
Proof.
  intros Hg Hu Hr Hit Hown. run_handler. rewrite Hg. cbn.
  rewrite Hit. cbn. rewrite Hu, Hr. cbn.
  rewrite bool_decide_eq_false_2 by (intros Hne; exact (Hne Hown)).
  cbn. rewrite Hit. reflexivity.
Qed.

(** X12.  For an ID that names no item, [GET /:id] and [DELETE /:id] throw
    the error of [itemControl.get], the first thing they call after the
    gate: [request.user] is not read, [itemControl.del] is not called, and
    nothing is sent.  So a missing item is told apart from an item of
    another restaurant, which gets the 403 error. *)
Theorem missing_item_is_not_forbidden `{Collaborators} (gate : Async unit)
    (s s1 : St) :
  gate s = (Returned tt, s1) ->
  items s1 !! params_id (request s1) = None ->
  let id := params_id (request s1) in
  fst (get_item gate s) = Thrown notFound /\
  fst (delete_item gate s) = Thrown notFound /\
  notFound <> noAccess /\
  calls (snd (get_item gate s)) = ItemGet id :: calls s1 /\
  calls (snd (delete_item gate s)) = ItemGet id :: calls s1 /\
  items (snd (delete_item gate s)) = items s1 /\
  reply (snd (get_item gate s)) = reply s1 /\
  reply (snd (delete_item gate s)) = reply s1.
Proof.
  intros Hg Hnone id.
  destruct (handler_on_missing_item gate s s1 Hg Hnone) as [-> ->].
  cbn. repeat split. intros Heq. discriminate Heq.
Qed.

(** X13.  Deleting twice: after [DELETE /:id] has removed an item of the
    caller's restaurant, a second [DELETE /:id] for the same ID throws the
    error of [itemControl.get]; it does not call [itemControl.del], sends
    no confirmation and leaves the items as they are. *)
Theorem delete_twice_fails `{Collaborators} (gate : Async unit)
    (s s1 : St) (u : User) (r : Restaurant) (it : Item) :
  gate s = (Returned tt, s1) ->
  user (request s1) = UserRecord u ->
  restaurant u = Some r ->
  items s1 !! params_id (request s1) = Some it ->
  restaurantId it = r_id r ->
  forall (t t1 : St),
    gate t = (Returned tt, t1) ->
    items t1 = items (snd (delete_item gate s)) ->
    params_id (request t1) = params_id (request s1) ->
    delete_item gate t
    = (Thrown notFound, logCall (ItemGet (params_id (request t1))) t1).
Proof.
  intros Hg Hu Hr Hit Hown t t1 Hgt Hitems Hid.
  apply (handler_on_missing_item gate t t1 Hgt).
  rewrite Hitems, (delete_own_item_run gate s s1 u r it Hg Hu Hr Hit Hown), Hid.
  apply lookup_delete_eq.
Qed.

(** ** Reading with the caller's restaurant *)

(** X14.  [GET /:id] for an item of the caller's own restaurant sends
    that item; the only controller call is the [get]. *)
Theorem get_own_item `{Collaborators} (gate : Async unit)
    (s s1 : St) (u : User) (r : Restaurant) (it : Item) :
  gate s = (Returned tt, s1) ->
  user (request s1) = UserRecord u ->
  restaurant u = Some r ->
  items s1 !! params_id (request s1) = Some it ->
  restaurantId it = r_id r ->
  fst (get_item gate s) = Returned tt /\
  sent (reply (snd (get_item gate s))) = true /\
  status (reply (snd (get_item gate s))) = status (reply s1) /\
  payload (reply (snd (get_item gate s))) = Some (PItem it) /\
  calls (snd (get_item gate s)) = ItemGet (params_id (request s1)) :: calls s1.
Proof.
  intros Hg Hu Hr Hit Hown. run_handler. rewrite Hg. cbn.
  rewrite Hit. cbn. rewrite Hu, Hr. cbn.
  rewrite bool_decide_eq_false_2 by (intros Hne; exact (Hne Hown)).
  cbn. repeat split.
Qed.

(** X15.  [GET /], [GET /best-seller] and [GET /worst-seller] each make
    exactly one controller call, and its key is the ID of the restaurant
    in [request.user]: nothing in the request can name another
    restaurant.  What is sent is the result of that call, with the status
    left as it was; for [GET /] it is the menu [itemControl.getAllFrom]
    returns, which holds the stored items of that restaurant and no
    others. *)
Theorem reads_are_keyed_by_caller `{Collaborators} (gate : Async unit)
    (s s1 : St) (u : User) (r : Restaurant) :
  gate s = (Returned tt, s1) ->
  user (request s1) = UserRecord u ->
  restaurant u = Some r ->
  (fst (get_menu gate s) = Returned tt /\
   calls (snd (get_menu gate s)) = ItemGetAllFrom (r_id r) :: calls s1 /\
   sent (reply (snd (get_menu gate s))) = true /\
   status (reply (snd (get_menu gate s))) = status (reply s1) /\
   exists menu,
     fst (itemControl_getAllFrom (r_id r) s1) = Returned menu /\
     payload (reply (snd (get_menu gate s))) = Some (PMenu menu) /\
     forall it,
       In it menu <->
       (exists id, items s1 !! id = Some it) /\ restaurantId it = r_id r) /\
  (fst (get_best_seller gate s) = Returned tt /\
   calls (snd (get_best_seller gate s)) = StatsMostSold (r_id r) :: calls s1 /\
   payload (reply (snd (get_best_seller gate s)))
   = Some (PStats (mostSold (items s1) (r_id r)))) /\
  (fst (get_worst_seller gate s) = Returned tt /\
   calls (snd (get_worst_seller gate s)) = StatsLeastSold (r_id r) :: calls s1 /\
   payload (reply (snd (get_worst_seller gate s)))
   = Some (PStats (leastSold (items s1) (r_id r)))).
Proof.
  intros Hg Hu Hr.
  assert (Hmenu : forall it,
    In it (filter (fun it => restaurantId it = r_id r)
                  (map snd (map_to_list (items s1)))) <->
    (exists id, items s1 !! id = Some it) /\ restaurantId it = r_id r).
  { intros it. rewrite <- list_elem_of_In, list_elem_of_filter.
    rewrite list_elem_of_fmap. split.
    - intros [Hown ([id it'] & -> & Hel)]. split; [| exact Hown].
      exists id. apply elem_of_map_to_list. exact Hel.
    - intros [[id Hid] Hown]. split; [exact Hown |].
      exists (id, it). split; [reflexivity |].
      apply elem_of_map_to_list. exact Hid. }
  run_handler. rewrite Hg. cbn. rewrite Hu, Hr. cbn.
  split; [| repeat split].
  split; [reflexivity |]. split; [reflexivity |]. split; [reflexivity |].
  split; [reflexivity |].
  eexists. split; [reflexivity |]. split; [reflexivity |]. exact Hmenu.
Qed.

(** ** Creating for the caller *)

(** X16.  When the gate has passed and the body is an object, [POST /]
    inserts one row under the new ID and changes no other item.  The row
    takes [name], [price] and [description] from the body, whatever other
    keys the body has, and its restaurant is always the one in
    [request.user], never a value from the body.  The answer is that
    row. *)
Theorem post_creates_for_caller `{Collaborators} (gate : Async unit)
    (s s1 : St) (u : User) (r : Restaurant) (fields : list (string * Json)) :
  gate s = (Returned tt, s1) ->
  user (request s1) = UserRecord u ->
  restaurant u = Some r ->
  body (request s1) = Some (JObject fields) ->
  let f := mkFields (assoc "name" fields) (assoc "price" fields)
                    (assoc "description" fields) (r_id r) in
  let id := newPublicId (items s1) f in
  let row := createdRow id fields (r_id r) in
  let s2 := snd (post_item gate s) in
  fst (post_item gate s) = Returned tt /\
  items s2 = <[id := row]> (items s1) /\
  restaurantId row = r_id r /\
  payload (reply s2) = Some (PItem row) /\
  calls s2 = ItemGet id :: ItemCreate f :: calls s1 /\
  users s2 = users s1 /\
  forall other, other <> id -> items s2 !! other = items s1 !! other.
Proof.
  intros Hg Hu Hr Hb f id row s2. subst s2. run_handler.
  rewrite Hg. cbn. do 3 (rewrite Hb; cbn). rewrite Hu, Hr. cbn.
  fold f. fold id. rewrite lookup_insert_eq. cbn.
  repeat split.
  intros other Hne. apply lookup_insert_ne. congruence.
Qed.

(** ** A user that is no record with a restaurant *)

(** X17.  If the gate returns while [request.user] is not a user record
    with a restaurant (it is still [null], or still the deferred lookup
    of [formatUser], or a record whose restaurant is [null]), every item
    handler throws; it sends nothing, calls neither [itemControl.create]
    nor [itemControl.del], and leaves the items as they are. *)
Theorem handlers_need_resolved_user `{Collaborators} (gate : Async unit)
    (route : Route) (s s1 : St) :
  In route (itemRoutes gate) ->
  gate s = (Returned tt, s1) ->
  (forall u r, user (request s1) = UserRecord u -> restaurant u <> Some r) ->
  (exists e, fst (routeHandler route s) = Thrown e) /\
  items (snd (routeHandler route s)) = items s1 /\
  users (snd (routeHandler route s)) = users s1 /\
  reply (snd (routeHandler route s)) = reply s1 /\
  exists new,
    calls (snd (routeHandler route s)) = (new ++ calls s1)%list /\
    Forall (fun c => isWrite c = false) new.
Proof.
  unfold itemRoutes. cbn [In].
  intros Hin Hg Hno.
  assert (Hid : user_restaurant_id s1 = (Thrown (TypeError
                  "Cannot read properties of null (reading 'restaurant')"), s1)
             \/ user_restaurant_id s1 = (Thrown (TypeError
                  "Cannot read properties of undefined (reading 'id')"), s1)
             \/ user_restaurant_id s1 = (Thrown (TypeError
                  "Cannot read properties of null (reading 'id')"), s1)).
  { unfold user_restaurant_id. rewrite run_bind. cbn.
    destruct (user (request s1)) as [| i | u0] eqn:Hu; auto.
    destruct (restaurant u0) as [r0 |] eqn:Hr0; auto.
    destruct (Hno u0 r0 eq_refl Hr0). }
  revert Hid. unfold user_restaurant_id. rewrite run_bind. cbn. intros Hid.
  destruct Hin as [<- | [<- | [<- | [<- | [<- | [<- | []]]]]]];
    cbn [routeHandler]; run_handler; rewrite Hg; cbn;
    repeat (case_match; simplify_eq; cbn);
    try (destruct Hid as [Hid | [Hid | Hid]]; discriminate Hid);
    (split; [eauto |]); (split; [reflexivity |]); (split; [reflexivity |]);
    (split; [reflexivity |]); log_prefix; repeat constructor.
Qed.

(** ** The other schemas *)

(** X18.  The [params] schema of [GET /:id] and [DELETE /:id] accepts
    exactly the objects whose [id] is a string of 16 characters; further
    parameters do not matter. *)
Theorem params_schema_valid (v : Json) :
  validate paramsSchema v = true <->
  exists fields id,
    v = JObject fields /\
    assoc "id" fields = Some (JString id) /\
    String.length id = 16%nat.
Proof.
  unfold paramsSchema. split.
  - destruct v as [| | | | | fields]; cbn [validate]; try discriminate.
    rewrite !andb_true_iff. cbn [forallb orb].
    rewrite !andb_true_iff, !bool_decide_eq_true.
    intros (((Hid & _) & Hv & _) & _).
    destruct Hid as [x Hx]. rewrite Hx in Hv.
    apply validate_string in Hv as (id & -> & Hlo & Hhi).
    cbn [atLeast atMost] in Hlo, Hhi. apply Nat.leb_le in Hlo, Hhi.
    exists fields, id. repeat split; [exact Hx | lia].
  - intros (fields & id & -> & Hx & Hlen). cbn [validate].
    rewrite !andb_true_iff. cbn [forallb orb].
    rewrite !andb_true_iff, !bool_decide_eq_true. rewrite Hx.
    repeat split; eauto.
    apply validate_string. exists id. cbn [atLeast atMost].
    split; [reflexivity |]. split; apply Nat.leb_le; lia.
Qed.

Lemma created_row_json (id : string) (fields : list (string * Json))
    (r : RestaurantId) :
  wellFormedItem fields ->
  exists n p rest,
    (3 <= String.length n <= 255)%nat /\
    (0 <= p)%Q /\
    itemJson (createdRow id fields r)
    = JObject (("id", JString id) :: ("name", JString n)
               :: ("price", JNumber p) :: rest) /\
    (rest = [("restaurantId", JNumber (inject_Z r))] \/
     exists d, (String.length d <= 255)%nat /\
       rest = [("description", JString d);
               ("restaurantId", JNumber (inject_Z r))]).
Proof.
  intros ((n & Hn & Hlen) & (p & Hp & _ & Hmin) & Hd & _).
  unfold itemJson, createdRow. cbn [i_id i_name i_price i_description restaurantId].
  rewrite Hn, Hp.
  destruct Hd as [Hd | (d & Hd & Hdlen)]; rewrite Hd; cbn [defined app].
  - exists n, p, [("restaurantId", JNumber (inject_Z r))].
    split; [exact Hlen |]. split; [exact Hmin |]. split; [reflexivity |].
    left. reflexivity.
  - exists n, p, [("description", JString d);
                  ("restaurantId", JNumber (inject_Z r))].
    split; [exact Hlen |]. split; [exact Hmin |]. split; [reflexivity |].
    right. exists d. split; [exact Hdlen | reflexivity].
Qed.

Lemma string_in_bounds (lo hi : nat) (s : string) :
  validate (stringSchema (Some lo) (Some hi)) (JString s) = true <->
  (lo <= String.length s <= hi)%nat.
Proof.
  rewrite validate_string. cbn [atLeast atMost]. split.
  - intros (s0 & Hs & Hlo & Hhi). injection Hs as <-.
    apply Nat.leb_le in Hlo, Hhi. lia.
  - intros [Hlo Hhi]. exists s. split; [reflexivity |].
    split; apply Nat.leb_le; assumption.
Qed.

Lemma created_row_fits_item (id : string) (fields : list (string * Json))
    (r : RestaurantId) :
  wellFormedItem fields ->
  validate itemResponseSchema (itemJson (createdRow id fields r)) = true <->
  String.length id = 16%nat.
Proof.
  intros Hw.
  destruct (created_row_json id fields r Hw)
    as (n & p & rest & Hn & Hp & -> & Hrest).
  apply Qle_bool_iff in Hp.
  assert (Hname : validate (stringSchema (Some 3%nat) (Some 255%nat))
                           (JString n) = true)
    by (apply string_in_bounds; exact Hn).
  unfold itemResponseSchema. cbn [validate].
  destruct Hrest as [-> | (d & Hd & ->)];
    cbn -[validate Nat.leb String.length Qle_bool];
    rewrite ?Hname; cbn [validate numberSchema atLeast]; rewrite ?Hp;
    rewrite ?andb_true_r; rewrite ?andb_true_iff;
    rewrite ?string_in_bounds.
  - lia.
  - assert (Hdv : validate (stringSchema None (Some 255%nat)) (JString d) = true).
    { apply validate_string. exists d. cbn [atLeast atMost].
      split; [reflexivity |]. split; [reflexivity | apply Nat.leb_le; exact Hd]. }
    rewrite ?Hdv.
    split; [intros [H16 _]; lia | intros H16; repeat split; lia].
Qed.

Lemma created_row_fits_menu (id : string) (fields : list (string * Json))
    (r : RestaurantId) (sub : Schema) :
  wellFormedItem fields ->
  String.length id = 16%nat ->
  menuResponseSchema
  = mkSchema TyArray None None None None [] [] true (Some sub) ->
  validate sub (itemJson (createdRow id fields r)) = true.
Proof.
  intros Hw H16 Hsub.
  destruct (created_row_json id fields r Hw)
    as (n & p & rest & Hn & Hp & -> & Hrest).
  apply Qle_bool_iff in Hp.
  assert (Hname : validate (stringSchema (Some 3%nat) (Some 255%nat))
                           (JString n) = true)
    by (apply string_in_bounds; exact Hn).
  assert (Hidv : validate (stringSchema (Some 16%nat) (Some 16%nat))
                          (JString id) = true)
    by (apply string_in_bounds; lia).
  unfold menuResponseSchema in Hsub. injection Hsub as <-. cbn [validate].
  destruct Hrest as [-> | (d & Hd & ->)];
    cbn -[validate Nat.leb String.length Qle_bool];
    rewrite ?Hname, ?Hidv; cbn [validate numberSchema atLeast]; rewrite ?Hp;
    reflexivity.
Qed.

Lemma validate_array (sub : Schema) (xs : list Json) :
  validate (mkSchema TyArray None None None None [] [] true (Some sub))
           (JArray xs)
  = forallb (validate sub) xs.
Proof. reflexivity. Qed.

(** X19.  What [POST /] accepts can be sent back: a row created from a
    body that passes the body schema satisfies the response schema of
    [GET /:id] exactly when its public ID has 16 characters, and a list of
    such rows, the empty list included, then satisfies the response schema
    of [GET /]. *)
Theorem created_rows_fit_response_schemas (r : RestaurantId)
    (bodies : list (string * list (string * Json))) :
  Forall (fun b => wellFormedItem (snd b)) bodies ->
  (forall id fields, In (id, fields) bodies ->
     validate itemResponseSchema (itemJson (createdRow id fields r)) = true <->
     String.length id = 16%nat) /\
  (Forall (fun b => String.length (fst b) = 16%nat) bodies ->
   validate menuResponseSchema
     (JArray (map (fun b => itemJson (createdRow (fst b) (snd b) r)) bodies))
   = true).
Proof.
  intros Hw. split.
  - intros id fields Hin. apply created_row_fits_item.
    rewrite List.Forall_forall in Hw. exact (Hw (id, fields) Hin).
  - intros H16. unfold menuResponseSchema. rewrite validate_array.
    apply forallb_forall. intros j Hj.
    apply in_map_iff in Hj as ([id fields] & <- & Hin).
    rewrite List.Forall_forall in Hw, H16.
    apply (created_row_fits_menu id fields r).
    + exact (Hw (id, fields) Hin).
    + exact (H16 (id, fields) Hin).
    + reflexivity.
Qed.

(** ** When the negotiated type is undefined *)

(** X20.  The type [GET /openapi] works with is [undefined] in one case
    only: when the negotiation returns an empty array, which is truthy
    and so is not replaced by the default.  In every other case it is a
    string. *)
Theorem negotiatedType_undefined `{Collaborators} (acceptHeader : option string) :
  negotiatedType acceptHeader = None <->
  request_type acceptHeader supportedTypes = TypeArray [].
Proof.
  unfold negotiatedType, validType.
  destruct (request_type acceptHeader supportedTypes) as [| t | [| t ts]]; cbn.
  - split; intros Hf; discriminate Hf.
  - destruct (String.eqb t ""); cbn; split; intros Hf; discriminate Hf.
  - split; reflexivity.
  - split; intros Hf; discriminate Hf.
Qed.
(** * Runs on the demo deployment *)

#[local] Existing Instance Demo.collaborators.

(** The expired token of user 1.  The code sets 403 and sends the error;
    the expiry error of the token library has status code 401, and that is
    the status of the answer. *)
Lemma authenticate_status_follows_error_expired :
  let s := Demo.incoming (Some "old-token-of-1") "" None in
  jwtDecode (token (request s)) = inl Demo.expired /\
  code Demo.expired = Some TOKEN_EXPIRED /\
  statusCode Demo.expired = Some 401 /\
  sent (reply (snd (authenticate s))) = true /\
  payload (reply (snd (authenticate s))) = Some (PError Demo.expired) /\
  status (reply (snd (authenticate s))) = 401.
Proof.
  intros s.
  assert (Hv : jwtDecode (token (request s)) = inl Demo.expired)
    by reflexivity.
  assert (Hn : statusCode Demo.expired = Some 401) by reflexivity.
  split; [exact Hv |]. split; [reflexivity |]. split; [exact Hn |].
  destruct (authenticate_status_follows_error s Demo.expired Hv)
    as (Hsent & Hpayload & Hown & _).
  split; [exact Hsent |]. split; [exact Hpayload |].
  apply (Hown 401 Hn). lia.
Defined.

(** A missing token and a token that does not verify both get 401, the
    status of their errors. *)
Example authenticate_missing_token :
  status (reply (snd (authenticate
                        (Demo.incoming None "" None)))) = 401.
Proof. reflexivity. Qed.

Example authenticate_invalid_token :
  status (reply (snd (authenticate
                        (Demo.incoming (Some "garbage") "" None)))) = 401.
Proof. reflexivity. Qed.

(** An error without a status of its own is answered with what the
    code sets: 403 for the expiry code, 401 for any other. *)
Example rejection_without_error_status :
  status (rejection (mkError "Error" (Some TOKEN_EXPIRED) None "expired")
                    freshReply) = 403 /\
  status (rejection (mkError "Error" None None "other") freshReply) = 401.
Proof. split; reflexivity. Qed.

(** An [Authorization] header that is no bearer token.  The code sets 401
    and sends the error; the error has status code 400, and the answer is
    400.  The gate still returns normally. *)
Lemma authenticate_returns_normally_basic :
  let s := Demo.incoming (Some "Basic abc") "" None in
  jwtDecode (token (request s)) = inl Demo.badRequest /\
  statusCode Demo.badRequest = Some 400 /\
  fst (authenticate s) = Returned tt /\
  sent (reply (snd (authenticate s))) = true /\
  payload (reply (snd (authenticate s))) = Some (PError Demo.badRequest) /\
  status (reply (snd (authenticate s))) = 400 /\
  forall (B : Type) (k : unit -> Async B),
    (authenticate ≫= k) s = k tt (snd (authenticate s)).
Proof.
  intros s.
  assert (Hv : jwtDecode (token (request s)) = inl Demo.badRequest)
    by reflexivity.
  assert (Hn : statusCode Demo.badRequest = Some 400) by reflexivity.
  split; [exact Hv |]. split; [exact Hn |].
  destruct (authenticate_returns_normally s) as [Hret Hfail].
  split; [exact Hret |].
  destruct (Hfail Demo.badRequest Hv) as (Hsent & Hpayload & Hown & Hnext).
  split; [exact Hsent |]. split; [exact Hpayload |].
  split; [apply (Hown 400 Hn); lia | exact Hnext].
Defined.

(** The base gate alone leaves the deferred lookup in [request.user]. *)
Example authenticate_attaches_deferred_user_owner :
  let s := Demo.incoming (Some "token-of-1") "" None in
  user (request (snd (authenticate s))) = UserDeferred 1 /\
  calls (snd (authenticate s)) = [].
Proof.
  assert (Hv : jwtDecode (token (request
                 (Demo.incoming (Some "token-of-1") "" None)))
               = inr (mkPayload 1)) by reflexivity.
  destruct (authenticate_attaches_deferred_user _ _ Hv) as (_ & Hu & Hc & _).
  split; [exact Hu | exact Hc].
Qed.

(** [Accept: text/yaml] is served the YAML document, and a request
    without [Accept] header the JSON document. *)
Lemma openapi_serves_negotiated_type_yaml :
  let s := mkSt (mkRequest None (Some "text/yaml") "" None UserNull)
                freshReply Demo.usersTable Demo.itemsTable [] in
  let t := Demo.incoming None "" None in
  request_type (accept (request s))
    ["application/json"; "application/yaml"; "text/yaml"; "text/yml"]
  = TypeString "text/yaml" /\
  openapi s = (Returned tt, setReply (representation "text/yaml" (reply s)) s) /\
  payload (reply (snd (openapi s))) = Some (PDocument (Some swagger_yaml)) /\
  accept (request t) = None /\
  openapi t
  = (Returned tt, setReply (representation "application/json" (reply t)) t) /\
  payload (reply (snd (openapi t))) = Some (PDocument (Some swagger_json)).
Proof.
  intros s t.
  assert (Hs : request_type (accept (request s))
                 ["application/json"; "application/yaml"; "text/yaml"; "text/yml"]
               = TypeString "text/yaml") by reflexivity.
  assert (Ht : request_type (accept (request t))
                 ["application/json"; "application/yaml"; "text/yaml"; "text/yml"]
               = TypeFalse
            \/ request_type (accept (request t))
                 ["application/json"; "application/yaml"; "text/yaml"; "text/yml"]
               = TypeString "application/json") by (right; reflexivity).
  assert (Hne : "text/yaml" <> "") by discriminate.
  pose proof (openapi_serves_negotiated_type s) as Hserved.
  cbv zeta in Hserved. destruct Hserved as (Hstring & _).
  pose proof (openapi_serves_negotiated_type t) as Hdefault.
  cbv zeta in Hdefault. destruct Hdefault as (_ & _ & _ & Hnone).
  split; [exact Hs |]. split; [exact (Hstring "text/yaml" Hs Hne) |].
  split; [rewrite (Hstring "text/yaml" Hs Hne); reflexivity |].
  split; [reflexivity |]. split; [exact (Hnone eq_refl Ht) |].
  rewrite (Hnone eq_refl Ht). reflexivity.
Defined.

Example negotiatedType_text_yaml :
  negotiatedType (Some "text/yaml") = Some "text/yaml".
Proof. reflexivity. Qed.

Example negotiatedType_no_match :
  negotiatedType (Some "image/png") = Some "application/json".
Proof. reflexivity. Qed.

(** [GET /openapi] without [Accept] header and [GET /openapi/json] with
    [Accept: text/yaml] carry the same JSON document. *)
Lemma openapi_json_agrees_two_requests :
  let s1 := Demo.incoming None "" None in
  let s2 := mkSt (mkRequest None (Some "text/yaml") "" None UserNull)
                 freshReply Demo.usersTable Demo.itemsTable [] in
  negotiatedType (accept (request s1)) = Some "application/json" /\
  negotiatedType (accept (request s2)) = Some "text/yaml" /\
  payload (reply (snd (openapi s1))) = payload (reply (snd (openapi_json s2))) /\
  payload (reply (snd (openapi_json s2))) = Some (PDocument (Some swagger_json)) /\
  contentType (reply (snd (openapi_json s2))) = Some "application/json".
Proof.
  intros s1 s2.
  assert (Hn : negotiatedType (accept (request s1)) = Some "application/json")
    by reflexivity.
  assert (Hdev : PROD = false) by reflexivity.
  split; [exact Hn |]. split; [reflexivity |].
  destruct (openapi_json_agrees s1 s2 Hn) as (Heq & Hd & _).
  split; [exact Heq |].
  destruct (Hd Hdev) as (Hp & Hj & _ & Hct).
  split; [rewrite Hp, Hj; reflexivity | exact Hct].
Defined.

Lemma yaml_body_parsing_bad_yaml :
  "text/yaml" ∈ yamlContentTypes /\
  YAML_load "{name: Soup" = inl Demo.yamlException /\
  parseBody "text/yaml" "{name: Soup" = inl (setStatusCode 400 Demo.yamlException) /\
  status (reply (snd (receive "text/yaml" "{name: Soup" (fun _ => ret tt)
                              (Demo.incoming None "" None)))) = 400 /\
  parseBody "text/yaml" Demo.soupYaml
  = parseBody "application/json" Demo.soupJson.
Proof.
  assert (Hct : "text/yaml" ∈ yamlContentTypes).
  { unfold yamlContentTypes. repeat constructor. }
  split; [exact Hct |]. split; [reflexivity |].
  destruct (yaml_body_parsing "text/yaml" "{name: Soup" Hct) as [Hbad _].
  destruct (Hbad Demo.yamlException eq_refl) as [Hp Hr].
  split; [exact Hp |].
  split.
  - apply (Hr (fun _ => ret tt) (Demo.incoming None "" None) eq_refl).
  - destruct (yaml_body_parsing "text/yaml" Demo.soupYaml Hct) as [_ Hgood].
    destruct (Hgood (Some Demo.soup) eq_refl) as [_ Hj].
    apply (Hj Demo.soupJson eq_refl).
Defined.

(** User 2 has no restaurant: [GET /] answers 403 and asks the item
    controller nothing. *)
Lemma no_restaurant_is_forbidden_guest :
  let s := Demo.incoming (Some "token-of-2") "" None in
  let route := mkRoute None None (get_menu authenticateWithRestaurant) in
  let s' := snd (runRoute route s) in
  In route (itemRoutes authenticateWithRestaurant) /\
  reply s = freshReply /\
  jwtDecode (token (request s)) = inr (mkPayload 2) /\
  users s !! 2 = Some Demo.guest /\
  restaurant Demo.guest = None /\
  is_Some (validateRequest route (request s)) /\
  sent (reply s') = true /\
  status (reply s') = 403 /\
  payload (reply s') = Some (PError (APIError noRestaurantMessage 403)) /\
  items s' = items s /\
  calls s' = [UserGet 2].
Proof.
  intros s route s'.
  assert (Hin : In route (itemRoutes authenticateWithRestaurant))
    by (left; reflexivity).
  assert (Hfresh : reply s = freshReply) by reflexivity.
  assert (Hv : jwtDecode (token (request s)) = inr (mkPayload 2))
    by reflexivity.
  assert (Hu : users s !! p_id (mkPayload 2) = Some Demo.guest)
    by reflexivity.
  assert (Hr : restaurant Demo.guest = None) by reflexivity.
  assert (Hok : is_Some (validateRequest route (request s)))
    by (eexists; reflexivity).
  split; [exact Hin |]. split; [exact Hfresh |]. split; [exact Hv |].
  split; [exact Hu |]. split; [exact Hr |]. split; [exact Hok |].
  pose proof (no_restaurant_is_forbidden route s (mkPayload 2) Demo.guest
                Hin Hfresh Hv Hu Hr) as Hroute.
  cbv zeta in Hroute. destruct Hroute as [Haccepted _].
  destruct (Haccepted Hok)
    as (Hsent & Hstatus & Hpayload & _ & Hitems & Hcalls).
  split; [exact Hsent |]. split; [exact Hstatus |]. split; [exact Hpayload |].
  split; [exact Hitems | exact Hcalls].
Defined.

(** C3, as the specification has it, fails on [GET /:id] with the id
    [abc]: the token of user 2 verifies, user 2 has no restaurant, and the
    answer is the 400 of the params schema, not 403; the gate has not
    run. *)
Lemma no_restaurant_short_id_is_400 :
  let s := Demo.incoming (Some "token-of-2") "abc" None in
  let route := mkRoute (Some paramsSchema) None
                       (get_item authenticateWithRestaurant) in
  let s' := snd (runRoute route s) in
  In route (itemRoutes authenticateWithRestaurant) /\
  jwtDecode (token (request s)) = inr (mkPayload 2) /\
  users s !! 2 = Some Demo.guest /\
  restaurant Demo.guest = None /\
  status (reply s') = 400 /\
  status (reply s') <> 403 /\
  payload (reply s') = Some (PError validationError) /\
  calls s' = [].
Proof.
  split; [right; left; reflexivity |].
  split; [reflexivity |]. split; [reflexivity |]. split; [reflexivity |].
  split; [reflexivity |]. split; [intros Hs; discriminate Hs |].
  split; reflexivity.
Qed.

(** With an id of 16 characters the same user gets 403 on each of the
    six routes; [POST /] is given a body that passes its schema. *)
Example no_restaurant_every_route :
  map (fun route => status (reply (snd (runRoute route
         (Demo.incoming (Some "token-of-2") "aaaaaaaaaaaaaaaa"
                        (Some Demo.soup))))))
      (itemRoutes authenticateWithRestaurant)
  = [403; 403; 403; 403; 403; 403].
Proof. reflexivity. Qed.

(** User 1 passes the gate of [GET /], and [request.user] is then the
    record of user 1. *)
Lemma user_is_resolved_for_handlers_owner :
  let s := Demo.incoming (Some "token-of-1") "" None in
  let s1 := setUser (UserRecord Demo.owner) (logCall (UserGet 1) s) in
  let route := mkRoute None None (get_menu authenticateWithRestaurant) in
  In route (itemRoutes authenticateWithRestaurant) /\
  user (request s) = UserNull /\
  authenticateWithRestaurant s = (Returned tt, s1) /\
  exists p u r,
    jwtDecode (token (request s)) = inr p /\
    users s !! p_id p = Some u /\
    restaurant u = Some r /\
    user (request s1) = UserRecord u /\
    calls s1 = UserGet (p_id p) :: calls s /\
    user_restaurant_id s1 = (Returned (r_id r), s1) /\
    forall e, In e userReadErrors -> fst (routeHandler route s) <> Thrown e.
Proof.
  intros s s1 route.
  assert (Hin : In route (itemRoutes authenticateWithRestaurant))
    by (left; reflexivity).
  assert (Hnull : user (request s) = UserNull) by reflexivity.
  assert (Hg : authenticateWithRestaurant s = (Returned tt, s1))
    by reflexivity.
  split; [exact Hin |]. split; [exact Hnull |]. split; [exact Hg |].
  exact (user_is_resolved_for_handlers route s s1 Hin Hnull Hg).
Defined.

Example user_is_resolved_owner_record :
  let s := Demo.incoming (Some "token-of-1") "" None in
  user (request (snd (authenticateWithRestaurant s))) = UserRecord Demo.owner /\
  fst (user_restaurant_id (snd (authenticateWithRestaurant s))) = Returned 10.
Proof. split; reflexivity. Qed.

(** User 1 runs restaurant 10 and asks for an item of restaurant 20. *)
Lemma item_access_is_owner_only_risotto :
  let s := Demo.incoming (Some "token-of-1") "bbbbbbbbbbbbbbbb" None in
  let s1 := setUser (UserRecord Demo.owner) (logCall (UserGet 1) s) in
  authenticateWithRestaurant s = (Returned tt, s1) /\
  items s1 !! "bbbbbbbbbbbbbbbb" = Some Demo.risotto /\
  restaurantId Demo.risotto <> r_id Demo.pizzeria /\
  get_item authenticateWithRestaurant s
  = (Thrown noAccess, logCall (ItemGet "bbbbbbbbbbbbbbbb") s1) /\
  delete_item authenticateWithRestaurant s
  = (Thrown noAccess, logCall (ItemGet "bbbbbbbbbbbbbbbb") s1) /\
  items (snd (delete_item authenticateWithRestaurant s)) = items s1.
Proof.
  assert (Hne : restaurantId Demo.risotto <> r_id Demo.pizzeria)
    by (intros Heq; discriminate Heq).
  pose (s := Demo.incoming (Some "token-of-1") "bbbbbbbbbbbbbbbb" None).
  pose (s1 := setUser (UserRecord Demo.owner) (logCall (UserGet 1) s)).
  assert (Hg : authenticateWithRestaurant s = (Returned tt, s1))
    by reflexivity.
  assert (Hit : items s1 !! params_id (request s1) = Some Demo.risotto)
    by reflexivity.
  split; [exact Hg |]. split; [exact Hit |]. split; [exact Hne |].
  destruct (item_access_is_owner_only authenticateWithRestaurant s s1
              Demo.owner Demo.pizzeria Demo.risotto
              Hg eq_refl eq_refl Hit) as [Hother _].
  destruct (Hother Hne) as (Hget & Hdel & _ & _ & Hitems).
  repeat split; assumption.
Defined.

(** User 1 deletes an item of the own restaurant. *)
Example delete_own_item :
  let s := Demo.incoming (Some "token-of-1") "aaaaaaaaaaaaaaaa" None in
  let s' := snd (runRoute (mkRoute (Some paramsSchema) None
                             (delete_item authenticateWithRestaurant)) s) in
  status (reply s') = 200 /\
  payload (reply s') = Some (PText "Item deleted successfully") /\
  items s' !! "aaaaaaaaaaaaaaaa" = None /\
  calls s' = [ItemDel "aaaaaaaaaaaaaaaa"; ItemGet "aaaaaaaaaaaaaaaa"; UserGet 1].
Proof. repeat split. Qed.

(** Soup for 500 cents: created, then read back by its new ID. *)
Lemma create_then_get_soup :
  let s := Demo.incoming (Some "token-of-1") "" (Some Demo.soup) in
  let s2 := snd (post_item authenticateWithRestaurant s) in
  let t := mkSt (mkRequest (Some "token-of-1") None "Zk3vQ9xTn5LpB7aW" None UserNull)
                freshReply (users s2) (items s2) (calls s2) in
  validate postBodySchema Demo.soup = true /\
  fst (post_item authenticateWithRestaurant s) = Returned tt /\
  fst (get_item authenticateWithRestaurant t) = Returned tt /\
  exists it,
    payload (reply (snd (get_item authenticateWithRestaurant t)))
    = Some (PItem it) /\
    i_id it = "Zk3vQ9xTn5LpB7aW" /\
    i_name it = Some (JString "Soup") /\
    i_price it = Some (JNumber (500 # 1)) /\
    i_description it = None.
Proof.
  split; [reflexivity |].
  pose (s := Demo.incoming (Some "token-of-1") "" (Some Demo.soup)).
  pose (s1 := setUser (UserRecord Demo.owner) (logCall (UserGet 1) s)).
  assert (Hg : authenticateWithRestaurant s = (Returned tt, s1))
    by reflexivity.
  destruct (create_then_get authenticateWithRestaurant s s1
              Demo.owner Demo.pizzeria
              [("name", JString "Soup"); ("price", JNumber (500 # 1))]
              "Soup" (500 # 1)
              Hg eq_refl eq_refl eq_refl eq_refl eq_refl eq_refl eq_refl)
    as (Hpost & _ & _ & _ & Hget).
  split; [exact Hpost |].
  pose (s2 := snd (post_item authenticateWithRestaurant s)).
  pose (t := mkSt (mkRequest (Some "token-of-1") None "Zk3vQ9xTn5LpB7aW" None
                             UserNull)
                  freshReply (users s2) (items s2) (calls s2)).
  apply (Hget t (setUser (UserRecord Demo.owner) (logCall (UserGet 1) t))
              Demo.owner Demo.pizzeria); reflexivity.
Defined.

(** C5, as the specification has it, fails on a body with the extra key
    [colour]: the validator removes the key and accepts the body, the
    handler creates the row, and the answer is 200 with the new item. *)
Lemma post_extra_field_is_accepted :
  let fields := [("name", JString "Soup"); ("price", JNumber (500 # 1));
                 ("colour", JString "red")] in
  let s := Demo.incoming (Some "token-of-1") "" (Some (JObject fields)) in
  let route := mkRoute None (Some postBodySchema)
                       (post_item authenticateWithRestaurant) in
  let s' := snd (runRoute route s) in
  let row := mkItem "Zk3vQ9xTn5LpB7aW" (Some (JString "Soup"))
                    (Some (JNumber (500 # 1))) None 10 in
  In route (itemRoutes authenticateWithRestaurant) /\
  In ("colour", JString "red") fields /\
  ~ In "colour" postBodyKeys /\
  status (reply s') = 200 /\
  status (reply s') <> 400 /\
  payload (reply s') = Some (PItem row) /\
  items s' !! "Zk3vQ9xTn5LpB7aW" = Some row /\
  exists f, calls s' = [ItemGet "Zk3vQ9xTn5LpB7aW"; ItemCreate f; UserGet 1].
Proof.
  split; [right; right; left; reflexivity |].
  split; [cbn; tauto |].
  split; [cbn; intros [H | [H | [H | []]]]; discriminate H |].
  split; [reflexivity |]. split; [intros Hs; discriminate Hs |].
  split; [reflexivity |]. split; [reflexivity |].
  eexists. reflexivity.
Qed.

(** The same body through the theorem: it is accepted, and the handler
    receives name and price only. *)
Lemma post_body_schema_extra_key :
  let fields := [("name", JString "Soup"); ("price", JNumber (500 # 1));
                 ("colour", JString "red")] in
  let s := Demo.incoming (Some "token-of-1") "" (Some (JObject fields)) in
  let route := mkRoute None (Some postBodySchema)
                       (post_item authenticateWithRestaurant) in
  body (request s) = Some (JObject fields) /\
  typedItem fields /\
  acceptableItem fields /\
  validateRequest route (request s)
  = Some (setBody (Some (JObject (normalizedItem fields))) (request s)) /\
  normalizedItem fields
  = [("name", JString "Soup"); ("price", JNumber (500 # 1))] /\
  wellFormedItem (normalizedItem fields).
Proof.
  intros fields s route.
  assert (Hb : body (request s) = Some (JObject fields)) by reflexivity.
  assert (Ht : typedItem fields).
  { repeat split; intros x Hx; cbn in Hx; try discriminate Hx;
      injection Hx as <-; eauto. }
  assert (Ha : acceptableItem fields).
  { split; [exists "Soup"; split; [reflexivity | cbn; lia] |].
    split; [| left; reflexivity].
    right. exists (500 # 1). split; [reflexivity |].
    split; [reflexivity | discriminate]. }
  split; [exact Hb |]. split; [exact Ht |]. split; [exact Ha |].
  pose proof (post_body_schema authenticateWithRestaurant s) as Hroute.
  cbv zeta in Hroute.
  destruct Hroute as (_ & Hsound & _ & _ & Htyped).
  destruct (Htyped fields Hb Ht) as [_ Hnormal].
  split; [exact (Hnormal Ha) |]. split; [reflexivity |].
  destruct (Hsound _ (Hnormal Ha)) as (fields' & Hbody & Hw & _).
  injection Hbody as <-. exact Hw.
Defined.

Example post_body_too_short_name :
  ajv postBodySchema (JObject [("name", JString "So");
                               ("price", JNumber (500 # 1))]) = None.
Proof. reflexivity. Qed.

Example post_body_fractional_price :
  ajv postBodySchema (JObject [("name", JString "Soup");
                               ("price", JNumber (5 # 2))]) = None.
Proof. reflexivity. Qed.

Example post_body_negative_price :
  ajv postBodySchema (JObject [("name", JString "Soup");
                               ("price", JNumber (-1 # 1))]) = None.
Proof. reflexivity. Qed.

(** A missing price is filled in with the default before [required] is
    checked. *)
Example post_body_missing_price :
  ajv postBodySchema (JObject [("name", JString "Soup")])
  = Some (JObject [("name", JString "Soup"); ("price", JNumber 0)]).
Proof. reflexivity. Qed.

(** A price given as a string of digits is coerced to the number. *)
Example post_body_price_as_string :
  ajv postBodySchema (JObject [("name", JString "Soup");
                               ("price", JString "500")])
  = Some Demo.soup.
Proof. reflexivity. Qed.

Example post_body_missing_name :
  ajv postBodySchema (JObject [("price", JNumber (500 # 1))]) = None.
Proof. reflexivity. Qed.

Example post_body_no_object :
  ajv postBodySchema (JArray [Demo.soup]) = None.
Proof. reflexivity. Qed.

Example post_body_soup : ajv postBodySchema Demo.soup = Some Demo.soup.
Proof. reflexivity. Qed.

(** ** Runs for the further properties *)

Lemma authenticate_frame_owner :
  let s := Demo.incoming (Some "token-of-1") "aaaaaaaaaaaaaaaa" None in
  jwtDecode (token (request s)) = inr (mkPayload 1) /\
  items (snd (authenticate s)) = items s /\
  calls (snd (authenticate s)) = calls s /\
  reply (snd (authenticate s)) = reply s /\
  params_id (request (snd (authenticate s))) = "aaaaaaaaaaaaaaaa".
Proof.
  split; [reflexivity |].
  destruct (authenticate_frame
              (Demo.incoming (Some "token-of-1") "aaaaaaaaaaaaaaaa" None))
    as (_ & Hitems & Hcalls & Hok & _).
  destruct (Hok (mkPayload 1) eq_refl) as (Hreply & _ & Hid & _).
  repeat split; assumption.
Defined.

Lemma authenticate_replies_iff_rejected_garbage :
  let s := Demo.incoming (Some "garbage") "" None in
  sent (reply s) = false /\
  jwtDecode (token (request s)) = inl Demo.invalid /\
  sent (reply (snd (authenticate s))) = true.
Proof.
  split; [reflexivity |]. split; [reflexivity |].
  destruct (authenticate_replies_iff_rejected
              (Demo.incoming (Some "garbage") "" None) eq_refl) as [[_ Hsent] _].
  apply Hsent. exists Demo.invalid. reflexivity.
Defined.

Lemma openapi_yaml_agrees_application_yaml :
  let s := mkSt (mkRequest None (Some "application/yaml") "" None UserNull)
                freshReply Demo.usersTable Demo.itemsTable [] in
  request_type (accept (request s)) supportedTypes
  = TypeString "application/yaml" /\
  openapi s = openapi_yaml s /\
  contentType (reply (snd (openapi s))) = Some "text/yaml".
Proof.
  split; [reflexivity |].
  destruct (openapi_yaml_agrees
              (mkSt (mkRequest None (Some "application/yaml") "" None UserNull)
                    freshReply Demo.usersTable Demo.itemsTable []))
    as (_ & Hyaml & _).
  destruct (Hyaml "application/yaml" eq_refl) as [Heq Hdev];
    [cbn; tauto |].
  split; [exact Heq |]. apply Hdev. reflexivity.
Defined.

Lemma openapi_dev_answer_png :
  let s := mkSt (mkRequest None (Some "image/png") "" None UserNull)
                freshReply Demo.usersTable Demo.itemsTable [] in
  PROD = false /\
  sent (reply (snd (openapi s))) = true /\
  status (reply (snd (openapi s))) = 200 /\
  contentType (reply (snd (openapi s))) = Some "application/json".
Proof.
  assert (Hdev : PROD = false) by reflexivity.
  split; [exact Hdev |].
  destruct (openapi_dev_answer
              (mkSt (mkRequest None (Some "image/png") "" None UserNull)
                    freshReply Demo.usersTable Demo.itemsTable []) Hdev)
    as (_ & Hsent & Hstatus & _).
  split; [exact Hsent |]. split; [exact Hstatus | reflexivity].
Defined.

Lemma docRoutes_send_defined_alias :
  let s := Demo.incoming None "" None in
  let alias := (reply_type "application/json";;
                reply_send (PDocument openAPIJson)) : Async unit in
  In ("/openapi.json", hiddenSchema, alias) docRoutes /\
  fst (alias s) = Returned tt /\
  sent (reply (snd (alias s))) = true /\
  exists doc, payload (reply (snd (alias s))) = Some (PDocument (Some doc)).
Proof.
  assert (Hin : In ("/openapi.json", hiddenSchema,
                    (reply_type "application/json";;
                     reply_send (PDocument openAPIJson)) : Async unit)
                   docRoutes)
    by (cbn; tauto).
  split; [exact Hin |].
  destruct (docRoutes_send_defined _ _ _ (Demo.incoming None "" None) Hin)
    as (Hret & Hsent & _ & Hdev).
  split; [exact Hret |]. split; [exact Hsent |]. apply Hdev. reflexivity.
Defined.

Lemma docRoutes_aliases_json :
  let alias := (reply_type "application/json";;
                reply_send (PDocument openAPIJson)) : Async unit in
  In ("/openapi.json", hiddenSchema, alias) docRoutes /\
  PROD = false /\
  forall s, alias s = openapi_json s.
Proof.
  assert (Hin : In ("/openapi.json", hiddenSchema,
                    (reply_type "application/json";;
                     reply_send (PDocument openAPIJson)) : Async unit)
                   docRoutes)
    by (cbn; tauto).
  split; [exact Hin |].
  destruct (docRoutes_aliases _ _ _ Hin) as [Hjson _].
  apply Hjson. reflexivity.
Defined.

(** The schema of [/openapi/json] declares both lists: [transform] keeps
    it.  The schema of the aliases declares neither: both are filled. *)
Lemma transform_fixed_points_openapi_json :
  is_Some (consumes openapiJsonSchema) /\
  is_Some (produces openapiJsonSchema) /\
  transform (Some openapiJsonSchema, "/openapi/json")
  = (Some openapiJsonSchema, "/openapi/json").
Proof.
  assert (Hc : is_Some (consumes openapiJsonSchema)) by (cbn; eauto).
  assert (Hp : is_Some (produces openapiJsonSchema)) by (cbn; eauto).
  split; [exact Hc |]. split; [exact Hp |].
  destruct (transform_fixed_points openapiJsonSchema "/openapi/json")
    as [Hfix _].
  apply Hfix. split; assumption.
Defined.

Lemma transform_advertises_yaml_alias :
  consumes hiddenSchema = None /\
  "text/yml" ∈ yamlContentTypes /\
  exists sc' l,
    fst (transform (Some hiddenSchema, "/openapi.yaml")) = Some sc' /\
    consumes sc' = Some l /\
    In "text/yml" l.
Proof.
  assert (Hy : "text/yml" ∈ yamlContentTypes)
    by (unfold yamlContentTypes; repeat constructor).
  split; [reflexivity |]. split; [exact Hy |].
  apply (transform_advertises_yaml hiddenSchema "/openapi.yaml" "text/yml"
           eq_refl).
  left. exact Hy.
Defined.

Example transform_keeps_empty_list :
  transform (Some (mkRouteSchema (Some []) None tt), "/x")
  = (Some (mkRouteSchema (Some []) (Some ["application/json"]) tt), "/x").
Proof. reflexivity. Qed.

Lemma read_routes_change_nothing_menu :
  let s := Demo.incoming (Some "token-of-1") "" None in
  In (get_menu authenticateWithRestaurant)
     [ get_menu authenticateWithRestaurant;
       get_item authenticateWithRestaurant;
       get_best_seller authenticateWithRestaurant;
       get_worst_seller authenticateWithRestaurant ] /\
  items (snd (get_menu authenticateWithRestaurant s)) = Demo.itemsTable.
Proof.
  assert (Hin : In (get_menu authenticateWithRestaurant)
     [ get_menu authenticateWithRestaurant;
       get_item authenticateWithRestaurant;
       get_best_seller authenticateWithRestaurant;
       get_worst_seller authenticateWithRestaurant ]) by (left; reflexivity).
  split; [exact Hin |].
  destruct (read_routes_change_nothing authenticateWithRestaurant _
              (Demo.incoming (Some "token-of-1") "" None) Hin) as [Hitems _].
  rewrite Hitems. reflexivity.
Defined.

Lemma delete_touches_only_named_risotto :
  let s := Demo.incoming (Some "token-of-1") "aaaaaaaaaaaaaaaa" None in
  "bbbbbbbbbbbbbbbb" <> params_id (request (snd (authenticateWithRestaurant s))) /\
  items (snd (delete_item authenticateWithRestaurant s)) !! "bbbbbbbbbbbbbbbb"
  = Some Demo.risotto.
Proof.
  assert (Hne : "bbbbbbbbbbbbbbbb"
                <> params_id (request (snd (authenticateWithRestaurant
                     (Demo.incoming (Some "token-of-1") "aaaaaaaaaaaaaaaa" None)))))
    by (intros Heq; discriminate Heq).
  split; [exact Hne |].
  destruct (delete_touches_only_named authenticateWithRestaurant
              (Demo.incoming (Some "token-of-1") "aaaaaaaaaaaaaaaa" None)
              "bbbbbbbbbbbbbbbb" Hne) as [Hother _].
  rewrite Hother. reflexivity.
Defined.

Lemma missing_item_is_not_forbidden_unknown :
  let s := Demo.incoming (Some "token-of-1") "cccccccccccccccc" None in
  let s1 := setUser (UserRecord Demo.owner) (logCall (UserGet 1) s) in
  authenticateWithRestaurant s = (Returned tt, s1) /\
  items s1 !! params_id (request s1) = None /\
  fst (get_item authenticateWithRestaurant s) = Thrown notFound /\
  fst (delete_item authenticateWithRestaurant s) = Thrown notFound.
Proof.
  pose (s := Demo.incoming (Some "token-of-1") "cccccccccccccccc" None).
  pose (s1 := setUser (UserRecord Demo.owner) (logCall (UserGet 1) s)).
  assert (Hg : authenticateWithRestaurant s = (Returned tt, s1)) by reflexivity.
  assert (Hnone : items s1 !! params_id (request s1) = None) by reflexivity.
  split; [exact Hg |]. split; [exact Hnone |].
  destruct (missing_item_is_not_forbidden authenticateWithRestaurant s s1
              Hg Hnone) as (Hget & Hdel & _).
  split; assumption.
Defined.

Lemma delete_twice_fails_margherita :
  let s := Demo.incoming (Some "token-of-1") "aaaaaaaaaaaaaaaa" None in
  let s2 := snd (delete_item authenticateWithRestaurant s) in
  let t := mkSt (mkRequest (Some "token-of-1") None "aaaaaaaaaaaaaaaa" None
                           UserNull)
                freshReply (users s2) (items s2) (calls s2) in
  fst (delete_item authenticateWithRestaurant s) = Returned tt /\
  fst (delete_item authenticateWithRestaurant t) = Thrown notFound /\
  items (snd (delete_item authenticateWithRestaurant t)) = items s2.
Proof.
  pose (s := Demo.incoming (Some "token-of-1") "aaaaaaaaaaaaaaaa" None).
  pose (s1 := setUser (UserRecord Demo.owner) (logCall (UserGet 1) s)).
  pose (s2 := snd (delete_item authenticateWithRestaurant s)).
  pose (t := mkSt (mkRequest (Some "token-of-1") None "aaaaaaaaaaaaaaaa" None
                             UserNull)
                  freshReply (users s2) (items s2) (calls s2)).
  pose (t1 := setUser (UserRecord Demo.owner) (logCall (UserGet 1) t)).
  assert (Hg : authenticateWithRestaurant s = (Returned tt, s1)) by reflexivity.
  assert (Hit : items s1 !! params_id (request s1) = Some Demo.margherita)
    by reflexivity.
  assert (Hgt : authenticateWithRestaurant t = (Returned tt, t1)) by reflexivity.
  split; [reflexivity |].
  pose proof (delete_twice_fails authenticateWithRestaurant s s1
                Demo.owner Demo.pizzeria Demo.margherita
                Hg eq_refl eq_refl Hit eq_refl t t1 Hgt eq_refl eq_refl) as Hsecond.
  fold s s2 t. rewrite Hsecond. split; reflexivity.
Defined.

Lemma get_own_item_margherita :
  let s := Demo.incoming (Some "token-of-1") "aaaaaaaaaaaaaaaa" None in
  let s1 := setUser (UserRecord Demo.owner) (logCall (UserGet 1) s) in
  authenticateWithRestaurant s = (Returned tt, s1) /\
  restaurantId Demo.margherita = r_id Demo.pizzeria /\
  payload (reply (snd (get_item authenticateWithRestaurant s)))
  = Some (PItem Demo.margherita).
Proof.
  pose (s := Demo.incoming (Some "token-of-1") "aaaaaaaaaaaaaaaa" None).
  pose (s1 := setUser (UserRecord Demo.owner) (logCall (UserGet 1) s)).
  assert (Hg : authenticateWithRestaurant s = (Returned tt, s1)) by reflexivity.
  assert (Hit : items s1 !! params_id (request s1) = Some Demo.margherita)
    by reflexivity.
  split; [exact Hg |]. split; [reflexivity |].
  destruct (get_own_item authenticateWithRestaurant s s1
              Demo.owner Demo.pizzeria Demo.margherita
              Hg eq_refl eq_refl Hit eq_refl) as (_ & _ & _ & Hpayload & _).
  exact Hpayload.
Defined.

Lemma reads_are_keyed_by_caller_owner :
  let s := Demo.incoming (Some "token-of-1") "" None in
  let s1 := setUser (UserRecord Demo.owner) (logCall (UserGet 1) s) in
  authenticateWithRestaurant s = (Returned tt, s1) /\
  calls (snd (get_menu authenticateWithRestaurant s))
  = [ItemGetAllFrom 10; UserGet 1] /\
  (exists menu,
     payload (reply (snd (get_menu authenticateWithRestaurant s)))
     = Some (PMenu menu) /\
     In Demo.margherita menu /\
     ~ In Demo.risotto menu) /\
  calls (snd (get_best_seller authenticateWithRestaurant s))
  = [StatsMostSold 10; UserGet 1] /\
  calls (snd (get_worst_seller authenticateWithRestaurant s))
  = [StatsLeastSold 10; UserGet 1].
Proof.
  pose (s := Demo.incoming (Some "token-of-1") "" None).
  pose (s1 := setUser (UserRecord Demo.owner) (logCall (UserGet 1) s)).
  assert (Hg : authenticateWithRestaurant s = (Returned tt, s1)) by reflexivity.
  assert (Hm : items s1 !! "aaaaaaaaaaaaaaaa" = Some Demo.margherita)
    by reflexivity.
  split; [exact Hg |].
  destruct (reads_are_keyed_by_caller authenticateWithRestaurant s s1
              Demo.owner Demo.pizzeria Hg eq_refl eq_refl)
    as ((_ & Hmenu & _ & _ & (menu & _ & Hpayload & Hmine))
        & (_ & Hbest & _) & (_ & Hworst & _)).
  split; [exact Hmenu |]. split; [| split; assumption].
  exists menu. split; [exact Hpayload |]. split.
  - apply Hmine. split; [eexists; exact Hm | reflexivity].
  - intros Hin. apply Hmine in Hin as [_ Hown]. discriminate Hown.
Defined.

Example menu_of_owner :
  payload (reply (snd (get_menu authenticateWithRestaurant
                         (Demo.incoming (Some "token-of-1") "" None))))
  = Some (PMenu [Demo.margherita]).
Proof. reflexivity. Qed.

(** A body that names another restaurant: the row still belongs to the
    caller's. *)
Lemma post_creates_for_caller_ignores_restaurant :
  let b := [("name", JString "Soup"); ("price", JNumber (500 # 1));
            ("restaurantId", JNumber (20 # 1))] in
  let s := Demo.incoming (Some "token-of-1") "" (Some (JObject b)) in
  let s1 := setUser (UserRecord Demo.owner) (logCall (UserGet 1) s) in
  authenticateWithRestaurant s = (Returned tt, s1) /\
  exists row,
    payload (reply (snd (post_item authenticateWithRestaurant s)))
    = Some (PItem row) /\
    restaurantId row = 10 /\
    items (snd (post_item authenticateWithRestaurant s)) !! "aaaaaaaaaaaaaaaa"
    = Some Demo.margherita.
Proof.
  pose (b := [("name", JString "Soup"); ("price", JNumber (500 # 1));
              ("restaurantId", JNumber (20 # 1))]).
  pose (s := Demo.incoming (Some "token-of-1") "" (Some (JObject b))).
  pose (s1 := setUser (UserRecord Demo.owner) (logCall (UserGet 1) s)).
  assert (Hg : authenticateWithRestaurant s = (Returned tt, s1)) by reflexivity.
  split; [exact Hg |].
  destruct (post_creates_for_caller authenticateWithRestaurant s s1
              Demo.owner Demo.pizzeria b Hg eq_refl eq_refl eq_refl)
    as (_ & _ & Hrest & Hpayload & _ & _ & Hother).
  eexists. split; [exact Hpayload |]. split; [exact Hrest |].
  fold s. rewrite Hother; [reflexivity |].
  intros Heq. discriminate Heq.
Defined.

(** With the base gate alone in front of the handler, [request.user] is
    still the deferred lookup, and the handler throws. *)
Lemma handlers_need_resolved_user_base_gate :
  let s := Demo.incoming (Some "token-of-1") "aaaaaaaaaaaaaaaa" None in
  authenticate s = (Returned tt, setUser (UserDeferred 1) s) /\
  (exists e, fst (get_item authenticate s) = Thrown e) /\
  items (snd (get_item authenticate s)) = Demo.itemsTable /\
  reply (snd (get_item authenticate s)) = freshReply.
Proof.
  pose (s := Demo.incoming (Some "token-of-1") "aaaaaaaaaaaaaaaa" None).
  assert (Hg : authenticate s = (Returned tt, setUser (UserDeferred 1) s))
    by reflexivity.
  split; [exact Hg |].
  assert (Hin : In (mkRoute (Some paramsSchema) None (get_item authenticate))
                   (itemRoutes authenticate))
    by (right; left; reflexivity).
  assert (Hno : forall u r,
            user (request (setUser (UserDeferred 1) s)) = UserRecord u ->
            restaurant u <> Some r)
    by (intros u r Hu; discriminate Hu).
  destruct (handlers_need_resolved_user authenticate
              (mkRoute (Some paramsSchema) None (get_item authenticate))
              s (setUser (UserDeferred 1) s) Hin Hg Hno)
    as (Hthrows & Hitems & _ & Hreply & _).
  split; [exact Hthrows |]. split; [exact Hitems | exact Hreply].
Defined.

Lemma params_schema_valid_sixteen :
  validate paramsSchema
    (JObject [("id", JString "aaaaaaaaaaaaaaaa"); ("page", JString "2")])
  = true.
Proof.
  apply (proj2 (params_schema_valid _)).
  exists [("id", JString "aaaaaaaaaaaaaaaa"); ("page", JString "2")],
         "aaaaaaaaaaaaaaaa".
  repeat split.
Defined.

Example params_schema_short_id :
  validate paramsSchema (JObject [("id", JString "abc")]) = false.
Proof. reflexivity. Qed.

Lemma created_rows_fit_response_schemas_soup :
  let bodies := [("Zk3vQ9xTn5LpB7aW",
                  [("name", JString "Soup"); ("price", JNumber (500 # 1))])] in
  Forall (fun b => wellFormedItem (snd b)) bodies /\
  Forall (fun b => String.length (fst b) = 16%nat) bodies /\
  validate menuResponseSchema
    (JArray (map (fun b => itemJson (createdRow (fst b) (snd b) 10)) bodies))
  = true.
Proof.
  pose (bodies := [("Zk3vQ9xTn5LpB7aW",
                    [("name", JString "Soup"); ("price", JNumber (500 # 1))])]).
  assert (Hw : Forall (fun b => wellFormedItem (snd b)) bodies).
  { constructor; [| constructor]. apply strict_post_body. reflexivity. }
  assert (H16 : Forall (fun b => String.length (fst b) = 16%nat) bodies)
    by (constructor; [reflexivity | constructor]).
  split; [exact Hw |]. split; [exact H16 |].
  destruct (created_rows_fit_response_schemas 10 bodies Hw) as [_ Hmenu].
  apply Hmenu. exact H16.
Defined.

Lemma negotiatedType_undefined_never_in_demo :
  negotiatedType (Some "text/yml") <> None.
Proof.
  intros Hnone.
  apply (proj1 (negotiatedType_undefined (Some "text/yml"))) in Hnone.
  discriminate Hnone.
Defined.
